(** * xoscar: the in-process ("dummy") transport

    A shallow embedding of [xoscar/backends/communication/dummy.py]:
    [DummyChannel], [DummyServer] and [DummyClient], together with the part of
    asyncio they are written against (events, queues, tasks).

    Python objects that are mutated or shared ([asyncio.Event],
    [asyncio.Queue], [asyncio.Task], the [_channels] and [_tasks] sets of a
    server, the [_task] slot of a client, the class-level registry
    [_address_to_instances]) live in an explicit store, the [World]; an object
    whose fields never change after [__init__] is a record carrying the
    references.  Every method is a function in a state-and-exception monad over
    the [World]; a coroutine that can suspend is split at its [await] into the
    part that runs up to the suspension and the part that runs when the event
    loop resumes it. *)

From Stdlib Require Import Ascii String.
From stdpp Require Import gmap strings list fin_maps.

(** ** Python values and exceptions *)

(** The values that travel through the transport: messages ([Any]) and the
    entries of a configuration [Dict]. *)
Inductive pyval :=
| PyNone
| PyBool (b : bool)
| PyInt (z : Z)
| PyStr (s : string)
| PyCallable (h : nat).

#[global] Instance pyval_eq_dec : EqDecision pyval.
Proof. solve_decision. Defined.

(** The exception classes the module raises or lets through. *)
Inductive exn :=
| KeyError
| ValueError
| TypeError
| AttributeError
| IndexError
| AssertionError
| RuntimeError
| ConnectionError
| AsyncioTimeoutError
| FuturesTimeoutError
| CancelledError
| ChannelClosed
| ServerClosed.

#[global] Instance exn_eq_dec : EqDecision exn.
Proof. solve_decision. Defined.

Inductive result (A : Type) :=
| Return (a : A)
| Raise (e : exn).
Arguments Return {A} a.
Arguments Raise {A} e.

(** What a coroutine has done when control comes back to the event loop: it
    finished (returned or raised), or it is parked on an [await]. *)
Inductive step (A : Type) :=
| Done (r : result A)
| Suspend.
Arguments Done {A} r.
Arguments Suspend {A}.

(** How the event loop resumes a parked coroutine: the awaited future
    completed, or an exception is thrown into the coroutine at the [await]. *)
Inductive wakeup :=
| Resumed
| Thrown (e : exn).

(** ** Objects *)

(** [DummyChannel]: [_in_queue], [_out_queue] and [_closed] are references
    into the store; the addresses come from [Channel.__init__]. *)
Record DummyChannel := mkChannel {
  ch_in_queue : nat;
  ch_out_queue : nat;
  ch_closed : nat;
  ch_local_address : option string;
  ch_dest_address : option string
}.

#[global] Instance DummyChannel_eq_dec : EqDecision DummyChannel.
Proof. solve_decision. Defined.

(** [DummyServer]: [srv_id] is the identity of the object; [_closed] is a
    reference to its event.  The mutable sets [_channels] and [_tasks] are
    kept in the store under [srv_id]. *)
Record DummyServer := mkServer {
  srv_id : nat;
  srv_address : string;
  srv_channel_handler : pyval;
  srv_closed : nat
}.

#[global] Instance DummyServer_eq_dec : EqDecision DummyServer.
Proof. solve_decision. Defined.

(** The two sets a server owns: [_channels] is a [WeakSet] of channels,
    [_tasks] a [set] of tasks (by reference). *)
Record ServerSets := mkSets {
  set_channels : list DummyChannel;
  set_tasks : gset nat
}.

(** [DummyClient]: the [_task] slot is mutable and kept in the store under
    [cl_id]. *)
Record DummyClient := mkClient {
  cl_id : nat;
  cl_local_address : option string;
  cl_dest_address : option string;
  cl_channel : DummyChannel
}.

(** An accept task: the coroutine [server.on_connected(server_channel)]
    wrapped by [asyncio.create_task]. *)
Inductive task_state :=
| Unstarted
| InHandler
| Finished (r : result unit).

Record Task := mkTask {
  task_server : DummyServer;
  task_channel : DummyChannel;
  task_state_of : task_state;
  task_must_cancel : bool;
  task_callbacks : list DummyServer
}.

(** ** The store *)

Record World := mkWorld {
  events : gmap nat bool;
  queues : gmap nat (list pyval);
  tasks : gmap nat Task;
  server_sets : gmap nat ServerSets;
  client_task : gmap nat (option nat);
  _address_to_instances : gmap string DummyServer
}.

Definition empty_world : World :=
  mkWorld ∅ ∅ ∅ ∅ ∅ ∅.

Definition with_events (f : gmap nat bool → gmap nat bool) (w : World) : World :=
  mkWorld (f (events w)) (queues w) (tasks w) (server_sets w) (client_task w)
          (_address_to_instances w).

Definition with_queues (f : gmap nat (list pyval) → gmap nat (list pyval))
    (w : World) : World :=
  mkWorld (events w) (f (queues w)) (tasks w) (server_sets w) (client_task w)
          (_address_to_instances w).

Definition with_tasks (f : gmap nat Task → gmap nat Task) (w : World) : World :=
  mkWorld (events w) (queues w) (f (tasks w)) (server_sets w) (client_task w)
          (_address_to_instances w).

Definition with_server_sets (f : gmap nat ServerSets → gmap nat ServerSets)
    (w : World) : World :=
  mkWorld (events w) (queues w) (tasks w) (f (server_sets w)) (client_task w)
          (_address_to_instances w).

Definition with_client_task (f : gmap nat (option nat) → gmap nat (option nat))
    (w : World) : World :=
  mkWorld (events w) (queues w) (tasks w) (server_sets w) (f (client_task w))
          (_address_to_instances w).

Definition with_registry (f : gmap string DummyServer → gmap string DummyServer)
    (w : World) : World :=
  mkWorld (events w) (queues w) (tasks w) (server_sets w) (client_task w)
          (f (_address_to_instances w)).

(** ** The monad of non-suspending code

    A raised exception does not undo the side effects that happened before
    it, so the store is threaded through both outcomes. *)

Definition M (A : Type) : Type := World → result A * World.

Definition ret {A} (a : A) : M A := λ w, (Return a, w).

Definition raise {A} (e : exn) : M A := λ w, (Raise e, w).

Definition bind {A B} (m : M A) (k : A → M B) : M B :=
  λ w, match m w with
       | (Return a, w') => k a w'
       | (Raise e, w') => (Raise e, w')
       end.

Notation "'let*' x ':=' m 'in' k" := (bind m (λ x, k))
  (at level 10, x binder, m at level 100, k at level 200).
Notation "m ';;' k" := (bind m (λ _, k))
  (at level 100, k at level 200, right associativity).

(** [try: m except E: h] for the exceptions selected by [catches]. *)
Definition try_except {A} (m : M A) (catches : exn → bool) (h : M A) : M A :=
  λ w, match m w with
       | (Raise e, w') => if catches e then h w' else (Raise e, w')
       | r => r
       end.

Definition modify (f : World → World) : M unit := λ w, (Return tt, f w).

Definition gets {A} (f : World → A) : M A := λ w, (Return (f w), w).

Fixpoint for_each {A} (f : A → M unit) (l : list A) : M unit :=
  match l with
  | [] => ret tt
  | x :: l' => f x ;; for_each f l'
  end.

(** ** asyncio.Event *)

Module Event.

(** [asyncio.Event()]: a new, unset event. *)
Definition new : M nat :=
  λ w, let e := fresh (dom (events w)) in
       (Return e, with_events (insert e false) w).

Definition is_set_in (w : World) (e : nat) : bool :=
  match events w !! e with
  | Some b => b
  | None => false
  end.

Definition is_set (e : nat) : M bool := gets (λ w, is_set_in w e).

Definition set (e : nat) : M unit := modify (with_events (insert e true)).

End Event.

(** ** asyncio.Queue (unbounded, FIFO) *)

Module Queue.

Definition new : M nat :=
  λ w, let q := fresh (dom (queues w)) in
       (Return q, with_queues (insert q []) w).

Definition items (w : World) (q : nat) : list pyval :=
  match queues w !! q with
  | Some l => l
  | None => []
  end.

(** [put_nowait]: with [maxsize = 0] the queue is never full; the item goes
    to the right end of the deque. *)
Definition put_nowait (q : nat) (item : pyval) : M unit :=
  λ w, (Return tt, with_queues (insert q (items w q ++ [item])) w).

(** [get], up to its first suspension: while the queue is empty the caller
    is parked on a getter future; otherwise [get_nowait] pops the left
    end. *)
Definition get (q : nat) (w : World) : step pyval * World :=
  match items w q with
  | [] => (Suspend, w)
  | item :: rest => (Done (Return item), with_queues (insert q rest) w)
  end.

(** [get], resumed: an exception thrown at the [await getter] is re-raised;
    a normal wake-up re-enters the [while self.empty()] loop. *)
Definition get_resume (q : nat) (wake : wakeup) (w : World) : step pyval * World :=
  match wake with
  | Thrown e => (Done (Raise e), w)
  | Resumed => get q w
  end.

End Queue.

(** ** DummyChannel *)

Module DummyChannel.

(** [send]: raises [ChannelClosed] when the flag is set, else enqueues on
    the outbound queue.  Never suspends. *)
Definition send (self : DummyChannel) (message : pyval) : M unit :=
  let* closed := Event.is_set (ch_closed self) in
  if closed then raise ChannelClosed
  else Queue.put_nowait (ch_out_queue self) message.

(** The [try: return await self._in_queue.get() / except RuntimeError]
    block of [recv], applied to what the [await] produced.  In the handler
    the flag is read, and both branches of that test fall off the end of
    the function, which returns [None]. *)
Definition recv_try (self : DummyChannel) (got : step pyval * World)
    : step pyval * World :=
  match got with
  | (Done (Raise RuntimeError), w) =>
      if Event.is_set_in w (ch_closed self)
      then (Done (Return PyNone), w)
      else (Done (Return PyNone), w)
  | other => other
  end.

(** [recv], up to its first suspension. *)
Definition recv (self : DummyChannel) (w : World) : step pyval * World :=
  if Event.is_set_in w (ch_closed self)
  then (Done (Raise ChannelClosed), w)
  else recv_try self (Queue.get (ch_in_queue self) w).

(** [recv], resumed by the event loop while parked in
    [await self._in_queue.get()]. *)
Definition recv_resume (self : DummyChannel) (wake : wakeup) (w : World)
    : step pyval * World :=
  recv_try self (Queue.get_resume (ch_in_queue self) wake w).

Definition close (self : DummyChannel) : M unit :=
  Event.set (ch_closed self).

Definition closed (self : DummyChannel) (w : World) : bool :=
  Event.is_set_in w (ch_closed self).

End DummyChannel.

(** ** urllib.parse.urlparse(address).scheme

    The scheme as [urlsplit] computes it: the characters before the first
    colon, lower-cased, when there is at least one, the first is an ASCII
    letter and all are letters, digits, [+], [-] or [.]; the empty string
    otherwise. *)

Definition is_ascii_alpha (c : ascii) : bool :=
  let n := nat_of_ascii c in
  ((65 <=? n) && (n <=? 90) || (97 <=? n) && (n <=? 122))%nat.

Definition is_scheme_char (c : ascii) : bool :=
  let n := nat_of_ascii c in
  (is_ascii_alpha c || (48 <=? n) && (n <=? 57)
   || (n =? 43) || (n =? 45) || (n =? 46))%nat.

Definition ascii_lower (c : ascii) : ascii :=
  let n := nat_of_ascii c in
  if ((65 <=? n) && (n <=? 90))%nat then ascii_of_nat (n + 32) else c.

(** [url[:url.find(':')]], or [None] when there is no colon. *)
Fixpoint before_colon (url : string) : option string :=
  match url with
  | EmptyString => None
  | String c rest =>
      if Ascii.eqb c ":"%char then Some EmptyString
      else match before_colon rest with
           | Some p => Some (String c p)
           | None => None
           end
  end.

Fixpoint string_forall (f : ascii → bool) (s : string) : bool :=
  match s with
  | EmptyString => true
  | String c rest => f c && string_forall f rest
  end.

Fixpoint string_map (f : ascii → ascii) (s : string) : string :=
  match s with
  | EmptyString => EmptyString
  | String c rest => String (f c) (string_map f rest)
  end.

Definition urlparse_scheme (url : string) : string :=
  match before_colon url with
  | Some (String c rest) =>
      if is_ascii_alpha c && string_forall is_scheme_char (String c rest)
      then string_map ascii_lower (String c rest)
      else EmptyString
  | _ => EmptyString
  end.

(** Truth value of a Python object, as [urlparse] tests its argument before
    decoding it. *)
Definition truthy (v : pyval) : bool :=
  match v with
  | PyNone => false
  | PyBool b => b
  | PyInt z => negb (z =? 0)%Z
  | PyStr s => negb (String.eqb s EmptyString)
  | PyCallable _ => true
  end.

(** ** asyncio.Task *)

Module AsyncTask.

(** [asyncio.create_task(server.on_connected(server_channel))]: the
    coroutine object is wrapped and its first step is scheduled; none of its
    body has run yet. *)
Definition create_task (server : DummyServer) (channel : DummyChannel) : M nat :=
  λ w, let t := fresh (dom (tasks w)) in
       (Return t, with_tasks (insert t (mkTask server channel Unstarted false [])) w).

Definition done_in (w : World) (t : nat) : bool :=
  match tasks w !! t with
  | Some tk => match task_state_of tk with Finished _ => true | _ => false end
  | None => false
  end.

(** [Task.cancel()]: [False] on a finished task; otherwise cancellation is
    requested, to be delivered at the task's next step. *)
Definition cancel (t : nat) : M bool :=
  λ w, match tasks w !! t with
       | Some tk =>
           match task_state_of tk with
           | Finished _ => (Return false, w)
           | _ => (Return true,
                   with_tasks (insert t (mkTask (task_server tk) (task_channel tk)
                                           (task_state_of tk) true (task_callbacks tk))) w)
           end
       | None => (Return false, w)
       end.

(** [task.add_done_callback(_discard)], the closure [_discard] being
    represented by the server it captured. *)
Definition add_done_callback (t : nat) (server : DummyServer) : M unit :=
  λ w, match tasks w !! t with
       | Some tk =>
           (Return tt,
            with_tasks (insert t (mkTask (task_server tk) (task_channel tk)
                                    (task_state_of tk) (task_must_cancel tk)
                                    (task_callbacks tk ++ [server]))) w)
       | None => (Return tt, w)
       end.

(** The effect of [cancel()] on the task object. *)
Definition request_cancel (tk : Task) : Task :=
  match task_state_of tk with
  | Finished _ => tk
  | _ => mkTask (task_server tk) (task_channel tk) (task_state_of tk) true
                (task_callbacks tk)
  end.

(** The task exists and has not finished. *)
Definition pending_in (w : World) (t : nat) : bool :=
  match tasks w !! t with
  | Some tk => match task_state_of tk with Finished _ => false | _ => true end
  | None => false
  end.

(** [task.result()] or [task.exception()] of a finished task. *)
Definition result_in (w : World) (t : nat) : option (result unit) :=
  match tasks w !! t with
  | Some tk => match task_state_of tk with Finished r => Some r | _ => None end
  | None => None
  end.


End AsyncTask.

(** ** DummyServer *)

(** A positional argument passed to [on_connected]. *)
Inductive pyarg :=
| ArgChannel (channel : DummyChannel)
| ArgValue (v : pyval).

(** What [on_connected] has done when it gives control back: it finished, or
    it is inside [await self.channel_handler(channel)]. *)
Inductive accept_step :=
| AcceptDone (r : result unit)
| AwaitHandler (handler : nat) (channel : DummyChannel).

Module DummyServer.

Definition scheme : string := "dummy".

Definition DEFAULT_DUMMY_ADDRESS : string := "dummy://0".

Definition sets_of (w : World) (self : DummyServer) : ServerSets :=
  match server_sets w !! srv_id self with
  | Some s => s
  | None => mkSets [] ∅
  end.

Definition _channels (w : World) (self : DummyServer) : list DummyChannel :=
  set_channels (sets_of w self).

Definition _tasks (w : World) (self : DummyServer) : gset nat :=
  set_tasks (sets_of w self).

Definition __init__ (address : string) (channel_handler : pyval) : M DummyServer :=
  let* closed := Event.new in
  λ w, let i := fresh (dom (server_sets w)) in
       (Return (mkServer i address channel_handler closed),
        with_server_sets (insert i (mkSets [] ∅)) w).

(** [cls._address_to_instances[address]]: a missing key raises [KeyError].
    The registry holds server objects only, so the value returned is never
    [None]. *)
Definition get_instance (address : string) : M (option DummyServer) :=
  λ w, match _address_to_instances w !! address with
       | Some server => (Return (Some server), w)
       | None => (Raise KeyError, w)
       end.

Definition stopped (self : DummyServer) (w : World) : bool :=
  Event.is_set_in w (srv_closed self).

(** The body of the [try] in [create]. *)
Definition create_lookup (address : string) : M DummyServer :=
  let* found := get_instance address in
  match found with
  | Some server =>
      let* is_stopped := gets (stopped server) in
      if is_stopped then raise KeyError else ret server
  | None => raise AttributeError
  end.

(** The [except KeyError] branch of [create]. *)
Definition create_fresh (address : string) (handle_channel : pyval) : M DummyServer :=
  let* server := __init__ address handle_channel in
  modify (with_registry (insert address server)) ;;
  ret server.

(** [config.pop("address", DEFAULT_DUMMY_ADDRESS)], the value popped. *)
Definition config_address (config : gmap string pyval) : pyval :=
  match config !! "address" with
  | Some a => a
  | None => PyStr DEFAULT_DUMMY_ADDRESS
  end.

(** [create(config)].  The pops act on a copy of the caller's dictionary. *)
Definition create (config : gmap string pyval) : M DummyServer :=
  let address := config_address config in
  let config := delete "address" config in
  match config !! "handle_channel" with
  | None => raise KeyError
  | Some handle_channel =>
      let config := delete "handle_channel" config in
      match address with
      | PyStr address =>
          if decide (urlparse_scheme address ≠ scheme) then raise ValueError
          else if decide (config ≠ ∅) then raise TypeError
          else try_except (create_lookup address)
                          (λ e, bool_decide (e = KeyError))
                          (create_fresh address handle_channel)
      | other =>
          (* urlparse of a non-str: a falsy one is read as the empty URL,
             whose scheme differs; a truthy one has no [decode] *)
          if truthy other then raise AttributeError else raise ValueError
      end
  end.

Definition start (self : DummyServer) : M unit := ret tt.

(** [asyncio.wait_for(self._closed.wait(), timeout)], up to its first
    suspension.  [timeout] is [None] or a number of clock ticks.  With a
    timeout that is not positive [wait_for] raises [TimeoutError] without
    waiting; otherwise [Event.wait] returns at once when the flag is set and
    parks the caller when it is not. *)
Definition wait_closed (self : DummyServer) (timeout : option Z) (w : World)
    : step unit * World :=
  match timeout with
  | Some d =>
      if (d <=? 0)%Z then (Done (Raise AsyncioTimeoutError), w)
      else if Event.is_set_in w (srv_closed self) then (Done (Return tt), w)
      else (Suspend, w)
  | None =>
      if Event.is_set_in w (srv_closed self) then (Done (Return tt), w)
      else (Suspend, w)
  end.

(** The same wait, resumed: the flag was set ([Resumed]), or an exception
    comes out of [wait_for], which is [TimeoutError] when the timer fired. *)
Definition wait_closed_resume (wake : wakeup) (w : World) : step unit * World :=
  match wake with
  | Resumed => (Done (Return tt), w)
  | Thrown e => (Done (Raise e), w)
  end.

(** The [try: ... except (futures.TimeoutError, asyncio.TimeoutError): pass]
    block of [join]. *)
Definition join_try (got : step unit * World) : step unit * World :=
  match got with
  | (Done (Raise e), w) =>
      if bool_decide (e = FuturesTimeoutError ∨ e = AsyncioTimeoutError)
      then (Done (Return tt), w)
      else (Done (Raise e), w)
  | other => other
  end.

(** [join(timeout)], up to its first suspension. *)
Definition join (self : DummyServer) (timeout : option Z) (w : World)
    : step unit * World :=
  join_try (wait_closed self timeout w).

(** [join], resumed while parked in [await asyncio.wait_for(...)]. *)
Definition join_resume (self : DummyServer) (wake : wakeup) (w : World)
    : step unit * World :=
  join_try (wait_closed_resume wake w).

(** [self._channels.add(channel)] on the [WeakSet]. *)
Definition weakset_add (channel : DummyChannel) (l : list DummyChannel)
    : list DummyChannel :=
  if decide (channel ∈ l) then l else l ++ [channel].

Definition add_channel (self : DummyServer) (channel : DummyChannel) (w : World)
    : World :=
  with_server_sets
    (insert (srv_id self) (mkSets (weakset_add channel (_channels w self))
                                  (_tasks w self))) w.

Definition add_task (self : DummyServer) (t : nat) (w : World) : World :=
  with_server_sets
    (insert (srv_id self) (mkSets (_channels w self) ({[t]} ∪ _tasks w self))) w.

Definition discard_task (self : DummyServer) (t : nat) (w : World) : World :=
  with_server_sets
    (insert (srv_id self) (mkSets (_channels w self) (_tasks w self ∖ {[t]}))) w.

(** [on_connected], up to the [await] of the handler.  [kwargs] lists the
    keywords of the call. *)
Definition on_connected (self : DummyServer) (args : list pyarg)
    (kwargs : list string) (w : World) : accept_step * World :=
  if Event.is_set_in w (srv_closed self)
  then (AcceptDone (Raise ServerClosed), w)
  else
    match args with
    | [] => (AcceptDone (Raise IndexError), w)
    | ArgValue _ :: _ => (AcceptDone (Raise AssertionError), w)
    | ArgChannel channel :: _ =>
        match kwargs with
        | _ :: _ => (AcceptDone (Raise TypeError), w)
        | [] =>
            let w' := add_channel self channel w in
            match srv_channel_handler self with
            | PyCallable handler => (AwaitHandler handler channel, w')
            | _ => (AcceptDone (Raise TypeError), w')
            end
        end
    end.

(** [on_connected], when the awaited handler finishes: its outcome is the
    outcome of the coroutine, no [try] surrounds the [await]. *)
Definition on_connected_resume (handler_result : result unit) : result unit :=
  handler_result.

(** [stop()], up to the [await] of [asyncio.gather]: the flag is set and
    every task of [_tasks] is cancelled, with no suspension in between; the
    generator handed to [gather] is consumed at the call, so the channels to
    close are the ones tracked at that moment. *)
Definition stop_begin (self : DummyServer) : M (list DummyChannel) :=
  Event.set (srv_closed self) ;;
  let* ts := gets (λ w, elements (_tasks w self)) in
  for_each (λ t, AsyncTask.cancel t ;; ret tt) ts ;;
  gets (λ w, _channels w self).

(** [stop()], run to its end with nothing else scheduled in between: each
    [close()] gathered sets a flag and nothing else. *)
Definition stop (self : DummyServer) : M unit :=
  let* chs := stop_begin self in
  for_each DummyChannel.close chs.

End DummyServer.

(** ** DummyClient *)

Module DummyClient.

Definition scheme : string := DummyServer.scheme.

Definition _task (w : World) (self : DummyClient) : option nat :=
  match client_task w !! cl_id self with
  | Some t => t
  | None => None
  end.

Definition set_task (self : DummyClient) (t : option nat) : M unit :=
  modify (with_client_task (insert (cl_id self) t)).

Definition __init__ (local_address dest_address : option string)
    (channel : DummyChannel) : M DummyClient :=
  λ w, let i := fresh (dom (client_task w)) in
       (Return (mkClient i local_address dest_address channel),
        with_client_task (insert i None) w).

(** [connect(dest_address, local_address)]; further keywords are ignored. *)
Definition connect (dest_address : string) (local_address : option string)
    : M DummyClient :=
  if decide (urlparse_scheme dest_address ≠ DummyServer.scheme)
  then raise ValueError
  else
    let* found := DummyServer.get_instance dest_address in
    match found with
    | None => raise RuntimeError
    | Some server =>
        let* is_stopped := gets (DummyServer.stopped server) in
        if is_stopped then raise ConnectionError
        else
          let* q1 := Queue.new in
          let* q2 := Queue.new in
          let* closed := Event.new in
          let client_channel := mkChannel q1 q2 closed local_address None in
          let server_channel := mkChannel q2 q1 closed None local_address in
          let* task := AsyncTask.create_task server server_channel in
          let* client := __init__ local_address (Some dest_address) client_channel in
          set_task client (Some task) ;;
          modify (DummyServer.add_task server task) ;;
          AsyncTask.add_done_callback task server ;;
          ret client
    end.

(** Modelled from the spec: [Client.close] of the base class, reached through
    [super().close()], is not part of this file; by section 4.3 it closes the
    underlying channel. *)
Definition super_close (self : DummyClient) : M unit :=
  DummyChannel.close (cl_channel self).

Definition close (self : DummyClient) : M unit :=
  super_close self ;;
  let* t := gets (λ w, _task w self) in
  match t with
  | Some task => AsyncTask.cancel task ;; set_task self None
  | None => ret tt
  end.

End DummyClient.

(** ** The event loop

    The accept task runs [server.on_connected(server_channel)].  The handler
    is code of the caller: what it does to the transport while it runs are
    calls of the operations below, and its end is the event [handler_exit]. *)

Module EventLoop.

Definition set_state (t : nat) (tk : Task) (st : task_state) (must_cancel : bool)
    (w : World) : World :=
  with_tasks (insert t (mkTask (task_server tk) (task_channel tk) st must_cancel
                               (task_callbacks tk))) w.

(** One step of task [t].  A task whose cancellation was requested gets
    [CancelledError] thrown in: before its first step the body of
    [on_connected] never runs; inside the handler the exception surfaces at
    the handler's suspension point and, [on_connected] having no [try],
    ends the task. *)
Definition run_task (t : nat) (w : World) : World :=
  match tasks w !! t with
  | None => w
  | Some tk =>
      match task_state_of tk with
      | Finished _ => w
      | Unstarted =>
          if task_must_cancel tk
          then set_state t tk (Finished (Raise CancelledError)) false w
          else
            match DummyServer.on_connected (task_server tk)
                    [ArgChannel (task_channel tk)] [] w with
            | (AcceptDone r, w') => set_state t tk (Finished r) false w'
            | (AwaitHandler _ _, w') => set_state t tk InHandler false w'
            end
      | InHandler =>
          if task_must_cancel tk
          then set_state t tk (Finished (Raise CancelledError)) false w
          else w
      end
  end.

(** The handler awaited by task [t] returns or raises. *)
Definition handler_exit (t : nat) (r : result unit) (w : World) : World :=
  match tasks w !! t with
  | Some tk =>
      match task_state_of tk with
      | InHandler =>
          set_state t tk (Finished (DummyServer.on_connected_resume r)) false w
      | _ => w
      end
  | None => w
  end.

(** The done callbacks of a finished task: each [_discard] removes the task
    from the [_tasks] of the server it captured. *)
Definition run_done_callbacks (t : nat) (w : World) : World :=
  match tasks w !! t with
  | Some tk =>
      match task_state_of tk with
      | Finished r =>
          let w' := foldr (λ server, DummyServer.discard_task server t) w
                          (task_callbacks tk) in
          with_tasks (insert t (mkTask (task_server tk) (task_channel tk)
                                  (Finished r) (task_must_cancel tk) [])) w'
      | _ => w
      end
  | None => w
  end.

(** A weak entry dies: the registry is a [WeakValueDictionary], the
    [_channels] of a server a [WeakSet]. *)
Definition gc_registry (address : string) (w : World) : World :=
  with_registry (delete address) w.

Definition gc_channel (server : DummyServer) (channel : DummyChannel) (w : World)
    : World :=
  with_server_sets
    (insert (srv_id server)
            (mkSets (filter (λ c, c ≠ channel) (DummyServer._channels w server))
                    (DummyServer._tasks w server))) w.

End EventLoop.


(** ** Runs of the system *)

Inductive op :=
| Create (config : gmap string pyval)
| Start (self : DummyServer)
| Join (self : DummyServer) (timeout : option Z)
| JoinResume (self : DummyServer) (wake : wakeup)
| OnConnected (self : DummyServer) (args : list pyarg) (kwargs : list string)
| Stop (self : DummyServer)
| StopBegin (self : DummyServer)
| Connect (dest_address : string) (local_address : option string)
| ClientClose (self : DummyClient)
| Send (self : DummyChannel) (message : pyval)
| Recv (self : DummyChannel)
| RecvResume (self : DummyChannel) (wake : wakeup)
| Close (self : DummyChannel)
| RunTask (t : nat)
| HandlerExit (t : nat) (r : result unit)
| RunDoneCallbacks (t : nat)
| GcRegistry (address : string)
| GcChannel (server : DummyServer) (channel : DummyChannel).

Definition exec (o : op) (w : World) : World :=
  match o with
  | Create config => snd (DummyServer.create config w)
  | Start self => snd (DummyServer.start self w)
  | Join self timeout => snd (DummyServer.join self timeout w)
  | JoinResume self wake => snd (DummyServer.join_resume self wake w)
  | OnConnected self args kwargs => snd (DummyServer.on_connected self args kwargs w)
  | Stop self => snd (DummyServer.stop self w)
  | StopBegin self => snd (DummyServer.stop_begin self w)
  | Connect dest_address local_address =>
      snd (DummyClient.connect dest_address local_address w)
  | ClientClose self => snd (DummyClient.close self w)
  | Send self message => snd (DummyChannel.send self message w)
  | Recv self => snd (DummyChannel.recv self w)
  | RecvResume self wake => snd (DummyChannel.recv_resume self wake w)
  | Close self => snd (DummyChannel.close self w)
  | RunTask t => EventLoop.run_task t w
  | HandlerExit t r => EventLoop.handler_exit t r w
  | RunDoneCallbacks t => EventLoop.run_done_callbacks t w
  | GcRegistry address => EventLoop.gc_registry address w
  | GcChannel server channel => EventLoop.gc_channel server channel w
  end.

Fixpoint run (ops : list op) (w : World) : World :=
  match ops with
  | [] => w
  | o :: ops' => run ops' (exec o w)
  end.

(** The server-side endpoint of the pair a client was connected with: the
    argument of the coroutine its task wraps. *)
Definition server_channel_of (w : World) (client : DummyClient)
    : option DummyChannel :=
  match DummyClient._task w client with
  | Some t =>
      match tasks w !! t with
      | Some tk => Some (task_channel tk)
      | None => None
      end
  | None => None
  end.

(** [send(m1) ... send(mn)] on one endpoint. *)
Definition send_all (self : DummyChannel) (messages : list pyval) : M unit :=
  for_each (DummyChannel.send self) messages.

(** [n] calls of [recv()] in a row on one endpoint, each observed up to its
    first suspension. *)
Fixpoint recv_n (self : DummyChannel) (n : nat) (w : World)
    : list (step pyval) * World :=
  match n with
  | O => ([], w)
  | S n' =>
      let (r, w') := DummyChannel.recv self w in
      let (rs, w'') := recv_n self n' w' in
      (r :: rs, w'')
  end.

(** ** Flags are only ever raised

    No code path clears an [asyncio.Event]: every write to [events] is the
    creation of a new event or a [set()]. *)

Definition flags_kept (w w' : World) : Prop :=
  ∀ e, Event.is_set_in w e = true → Event.is_set_in w' e = true.

Definition keeps {A} (m : M A) : Prop := ∀ w, flags_kept w (snd (m w)).

(** ** The store after [stop], in closed form *)

(** [cancel()] on each task of a list, as a change of the task table. *)
Definition cancel_all (ts : list nat) (m : gmap nat Task) : gmap nat Task :=
  foldl (λ m t, alter AsyncTask.request_cancel t m) m ts.

(** [set()] on each event of a list, as a change of the event table. *)
Definition set_all (es : list nat) (m : gmap nat bool) : gmap nat bool :=
  foldl (λ m e, <[e:=true]> m) m es.


(** ** Example worlds *)

(** A world from which the examples start: one server at [dummy://a], and a
    client connected to it. *)
Definition example_config : gmap string pyval :=
  {[ "address" := PyStr "dummy://a"; "handle_channel" := PyCallable 0 ]}.

Definition example_served : World :=
  snd (DummyServer.create example_config empty_world).

Definition example_connected : World :=
  snd (DummyClient.connect "dummy://a" None example_served).

Definition example_client : DummyClient :=
  mkClient 0 None (Some "dummy://a") (mkChannel 0 1 1 None None).

Definition example_server : DummyServer :=
  mkServer 0 "dummy://a" (PyCallable 0) 0.

Definition example_stopped : World :=
  snd (DummyServer.stop example_server example_served).

(** ** Traffic on one connection *)









(** * Properties *)

Lemma flags_kept_refl w : flags_kept w w.
Proof. by intros e. Qed.

Lemma flags_kept_trans w1 w2 w3 :
  flags_kept w1 w2 → flags_kept w2 w3 → flags_kept w1 w3.
Proof. intros H12 H23 e He. by apply H23, H12. Qed.

Lemma flags_kept_same_events w w' : events w' = events w → flags_kept w w'.
Proof. intros Heq e. unfold Event.is_set_in. by rewrite Heq. Qed.

Lemma flags_kept_set e w : flags_kept w (with_events (insert e true) w).
Proof.
  intros e' He'. unfold Event.is_set_in in *. simpl.
  destruct (decide (e = e')) as [->|Hne].
  - by rewrite lookup_insert_eq.
  - by rewrite lookup_insert_ne.
Qed.

Lemma flags_kept_new w :
  flags_kept w (with_events (insert (fresh (dom (events w))) false) w).
Proof.
  intros e He. unfold Event.is_set_in in *. simpl.
  destruct (events w !! e) as [b|] eqn:Hb; [|done].
  rewrite lookup_insert_ne; [by rewrite Hb|].
  intros Heq. apply (is_fresh (dom (events w))).
  rewrite Heq. apply elem_of_dom. eauto.
Qed.

Lemma keeps_ret {A} (a : A) : keeps (ret a).
Proof. intros w. apply flags_kept_refl. Qed.

Lemma keeps_raise {A} e : keeps (@raise A e).
Proof. intros w. apply flags_kept_refl. Qed.

Lemma keeps_gets {A} (f : World → A) : keeps (gets f).
Proof. intros w. apply flags_kept_refl. Qed.

Lemma keeps_bind {A B} (m : M A) (k : A → M B) :
  keeps m → (∀ a, keeps (k a)) → keeps (bind m k).
Proof.
  intros Hm Hk w. unfold bind. specialize (Hm w).
  destruct (m w) as [[a|e] w']; simpl in *; [|done].
  eapply flags_kept_trans; [exact Hm|apply Hk].
Qed.

Lemma keeps_try {A} (m : M A) catches h :
  keeps m → keeps h → keeps (try_except m catches h).
Proof.
  intros Hm Hh w. unfold try_except. specialize (Hm w).
  destruct (m w) as [[a|e] w']; simpl in *; [done|].
  destruct (catches e); [|done].
  eapply flags_kept_trans; [exact Hm|apply Hh].
Qed.

Lemma keeps_modify f :
  (∀ w, events (f w) = events w) → keeps (modify f).
Proof. intros Hf w. apply flags_kept_same_events. simpl. apply Hf. Qed.

Lemma keeps_for_each {A} (f : A → M unit) l :
  (∀ a, keeps (f a)) → keeps (for_each f l).
Proof.
  intros Hf. induction l as [|a l IH]; simpl.
  - apply keeps_ret.
  - apply keeps_bind; [apply Hf|by intros _].
Qed.

Lemma keeps_Event_set e : keeps (Event.set e).
Proof. intros w. apply flags_kept_set. Qed.

Lemma keeps_Event_new : keeps Event.new.
Proof. intros w. apply flags_kept_new. Qed.

Lemma keeps_Event_is_set e : keeps (Event.is_set e).
Proof. apply keeps_gets. Qed.

Lemma keeps_Queue_new : keeps Queue.new.
Proof. intros w. by apply flags_kept_same_events. Qed.

Lemma keeps_put_nowait q item : keeps (Queue.put_nowait q item).
Proof. intros w. by apply flags_kept_same_events. Qed.

Lemma keeps_cancel t : keeps (AsyncTask.cancel t).
Proof.
  intros w. unfold AsyncTask.cancel.
  destruct (tasks w !! t) as [tk|]; [|apply flags_kept_refl].
  destruct (task_state_of tk); by apply flags_kept_same_events.
Qed.

Lemma keeps_create_task server channel : keeps (AsyncTask.create_task server channel).
Proof. intros w. by apply flags_kept_same_events. Qed.

Lemma keeps_add_done_callback t server : keeps (AsyncTask.add_done_callback t server).
Proof.
  intros w. unfold AsyncTask.add_done_callback.
  destruct (tasks w !! t); by apply flags_kept_same_events.
Qed.

Create HintDb keeps.
#[local] Hint Resolve keeps_ret keeps_raise keeps_gets keeps_Event_set
  keeps_Event_new keeps_Event_is_set keeps_Queue_new keeps_put_nowait
  keeps_cancel keeps_create_task keeps_add_done_callback : keeps.

Ltac keeps_step :=
  first
    [ apply keeps_bind; [|intros ?]
    | apply keeps_try
    | apply keeps_for_each; intros ?
    | apply keeps_modify; by intros ?
    | progress auto with keeps ].

Lemma keeps_send self message : keeps (DummyChannel.send self message).
Proof. unfold DummyChannel.send. repeat keeps_step. case_match; auto with keeps. Qed.

Lemma keeps_close self : keeps (DummyChannel.close self).
Proof. apply keeps_Event_set. Qed.

Lemma keeps_server_init address handler : keeps (DummyServer.__init__ address handler).
Proof.
  unfold DummyServer.__init__. apply keeps_bind; [auto with keeps|].
  intros closed w. by apply flags_kept_same_events.
Qed.

Lemma keeps_get_instance address : keeps (DummyServer.get_instance address).
Proof.
  intros w. unfold DummyServer.get_instance.
  destruct (_ !! _); apply flags_kept_refl.
Qed.

#[local] Hint Resolve keeps_send keeps_close keeps_server_init keeps_get_instance : keeps.

Lemma keeps_create_lookup address : keeps (DummyServer.create_lookup address).
Proof.
  unfold DummyServer.create_lookup.
  apply keeps_bind; [auto with keeps|]. intros [server|]; [|auto with keeps].
  apply keeps_bind; [auto with keeps|]. intros []; auto with keeps.
Qed.

Lemma keeps_create_fresh address handler :
  keeps (DummyServer.create_fresh address handler).
Proof. unfold DummyServer.create_fresh. repeat keeps_step. Qed.

Lemma keeps_create config : keeps (DummyServer.create config).
Proof.
  unfold DummyServer.create.
  destruct (delete "address" config !! "handle_channel"); [|auto with keeps].
  repeat case_match; auto with keeps.
  all: try (apply keeps_try; [apply keeps_create_lookup|apply keeps_create_fresh]).
Qed.

Lemma keeps_stop_begin self : keeps (DummyServer.stop_begin self).
Proof. unfold DummyServer.stop_begin. repeat keeps_step. Qed.

Lemma keeps_stop self : keeps (DummyServer.stop self).
Proof.
  unfold DummyServer.stop. apply keeps_bind; [apply keeps_stop_begin|].
  intros chs. apply keeps_for_each. apply keeps_close.
Qed.

Lemma keeps_client_init l d c : keeps (DummyClient.__init__ l d c).
Proof. intros w. by apply flags_kept_same_events. Qed.

Lemma keeps_set_task self t : keeps (DummyClient.set_task self t).
Proof. apply keeps_modify. by intros ?. Qed.

#[local] Hint Resolve keeps_create keeps_stop keeps_client_init keeps_set_task : keeps.

Lemma keeps_connect dest_address local_address :
  keeps (DummyClient.connect dest_address local_address).
Proof.
  unfold DummyClient.connect. case_decide; [auto with keeps|].
  keeps_step; [auto with keeps|]. case_match; [|auto with keeps].
  keeps_step; [auto with keeps|]. case_match; [auto with keeps|].
  repeat keeps_step.
Qed.

Lemma keeps_client_close self : keeps (DummyClient.close self).
Proof.
  unfold DummyClient.close, DummyClient.super_close. repeat keeps_step.
  case_match; repeat keeps_step.
Qed.

Lemma flags_kept_recv_try self got :
  flags_kept (snd got) (snd (DummyChannel.recv_try self got)).
Proof.
  unfold DummyChannel.recv_try. destruct got as [[[a|[]]|] w]; simpl;
    try apply flags_kept_refl.
  case_match; apply flags_kept_refl.
Qed.

Lemma flags_kept_get q w : flags_kept w (snd (Queue.get q w)).
Proof.
  unfold Queue.get. destruct (Queue.items w q); [apply flags_kept_refl|].
  by apply flags_kept_same_events.
Qed.

Lemma flags_kept_recv self w : flags_kept w (snd (DummyChannel.recv self w)).
Proof.
  unfold DummyChannel.recv. case_match; [apply flags_kept_refl|].
  eapply flags_kept_trans; [apply (flags_kept_get (ch_in_queue self))|].
  apply flags_kept_recv_try.
Qed.

Lemma flags_kept_recv_resume self wake w :
  flags_kept w (snd (DummyChannel.recv_resume self wake w)).
Proof.
  unfold DummyChannel.recv_resume.
  eapply flags_kept_trans; [|apply flags_kept_recv_try].
  destruct wake; simpl; [apply flags_kept_get|apply flags_kept_refl].
Qed.

Lemma join_try_world got : snd (DummyServer.join_try got) = snd got.
Proof.
  unfold DummyServer.join_try. destruct got as [[[a|e]|] w]; simpl; try done.
  by case_bool_decide.
Qed.

Lemma join_world self timeout w : snd (DummyServer.join self timeout w) = w.
Proof.
  unfold DummyServer.join. rewrite join_try_world.
  unfold DummyServer.wait_closed. repeat case_match; done.
Qed.

Lemma join_resume_world self wake w :
  snd (DummyServer.join_resume self wake w) = w.
Proof.
  unfold DummyServer.join_resume. rewrite join_try_world. by destruct wake.
Qed.

Lemma flags_kept_on_connected self args kwargs w :
  flags_kept w (snd (DummyServer.on_connected self args kwargs w)).
Proof.
  unfold DummyServer.on_connected.
  repeat case_match; simpl; by apply flags_kept_same_events.
Qed.

Lemma flags_kept_run_task t w : flags_kept w (EventLoop.run_task t w).
Proof.
  unfold EventLoop.run_task.
  destruct (tasks w !! t) as [tk|]; [|apply flags_kept_refl].
  destruct (task_state_of tk); [| |apply flags_kept_refl].
  - destruct (task_must_cancel tk); [by apply flags_kept_same_events|].
    pose proof (flags_kept_on_connected (task_server tk)
                  [ArgChannel (task_channel tk)] [] w) as Hk.
    destruct (DummyServer.on_connected _ _ _ w) as [[r|h c] w']; simpl in *;
      (eapply flags_kept_trans; [exact Hk|by apply flags_kept_same_events]).
  - destruct (task_must_cancel tk);
      [by apply flags_kept_same_events|apply flags_kept_refl].
Qed.

Lemma flags_kept_handler_exit t r w : flags_kept w (EventLoop.handler_exit t r w).
Proof.
  unfold EventLoop.handler_exit.
  destruct (tasks w !! t) as [tk|]; [|apply flags_kept_refl].
  destruct (task_state_of tk); by apply flags_kept_same_events.
Qed.

Lemma discard_all_events t l w :
  events (foldr (λ server, DummyServer.discard_task server t) w l) = events w.
Proof. induction l as [|s l IH]; simpl; done. Qed.

Lemma flags_kept_run_done_callbacks t w :
  flags_kept w (EventLoop.run_done_callbacks t w).
Proof.
  unfold EventLoop.run_done_callbacks.
  destruct (tasks w !! t) as [tk|]; [|apply flags_kept_refl].
  destruct (task_state_of tk); try apply flags_kept_refl.
  apply flags_kept_same_events. simpl. apply discard_all_events.
Qed.

(** Every operation keeps the flags that are set. *)
Lemma flags_kept_exec o w : flags_kept w (exec o w).
Proof.
  destruct o; simpl.
  - apply keeps_create.
  - apply flags_kept_refl.
  - rewrite join_world. apply flags_kept_refl.
  - rewrite join_resume_world. apply flags_kept_refl.
  - apply flags_kept_on_connected.
  - apply keeps_stop.
  - apply keeps_stop_begin.
  - apply keeps_connect.
  - apply keeps_client_close.
  - apply keeps_send.
  - apply flags_kept_recv.
  - apply flags_kept_recv_resume.
  - apply keeps_close.
  - apply flags_kept_run_task.
  - apply flags_kept_handler_exit.
  - apply flags_kept_run_done_callbacks.
  - by apply flags_kept_same_events.
  - by apply flags_kept_same_events.
Qed.

Lemma flags_kept_run ops w : flags_kept w (run ops w).
Proof.
  revert w. induction ops as [|o ops IH]; intros w; simpl.
  - apply flags_kept_refl.
  - eapply flags_kept_trans; [apply flags_kept_exec|apply IH].
Qed.
(** ** What a successful [connect] builds *)

Lemma connect_inv dest_address local_address w client w1 :
  DummyClient.connect dest_address local_address w = (Return client, w1) →
  let q1 := fresh (dom (queues w)) in
  let q2 := fresh (dom (<[q1:=[]]> (queues w))) in
  let e := fresh (dom (events w)) in
  let t := fresh (dom (tasks w)) in
  ∃ server,
    urlparse_scheme dest_address = DummyServer.scheme ∧
    _address_to_instances w !! dest_address = Some server ∧
    DummyServer.stopped server w = false ∧
    cl_channel client = mkChannel q1 q2 e local_address None ∧
    DummyClient._task w1 client = Some t ∧
    tasks w1 !! t =
      Some (mkTask server (mkChannel q2 q1 e None local_address) Unstarted false
                   [server]) ∧
    t ∈ DummyServer._tasks w1 server ∧
    events w1 = <[e:=false]> (events w) ∧
    queues w1 = <[q2:=[]]> (<[q1:=[]]> (queues w)).
Proof.
  unfold DummyClient.connect. case_decide as Hs; [done|].
  unfold bind at 1. unfold DummyServer.get_instance.
  destruct (_address_to_instances w !! dest_address) as [server|] eqn:Hreg; [|done].
  unfold bind at 1. unfold gets.
  destruct (DummyServer.stopped server w) eqn:Hst; [done|].
  intros H.
  cbv [bind Queue.new Event.new AsyncTask.create_task DummyClient.__init__
       DummyClient.set_task modify AsyncTask.add_done_callback ret] in H.
  simpl in H. rewrite lookup_insert_eq in H. simpl in H.
  inversion H; subst; clear H. simpl.
  exists server. split_and!; try done.
  - unfold DummyClient._task. simpl. by rewrite lookup_insert_eq.
  - by rewrite lookup_insert_eq.
  - unfold DummyServer._tasks, DummyServer.sets_of. simpl.
    rewrite lookup_insert_eq. simpl. set_solver.
Qed.

Lemma run_app ops1 ops2 w : run (ops1 ++ ops2) w = run ops2 (run ops1 w).
Proof. revert w. induction ops1 as [|o ops1 IH]; intros w; simpl; [done|apply IH]. Qed.

Lemma closed_after_close self w :
  DummyChannel.closed self (snd (DummyChannel.close self w)) = true.
Proof.
  unfold DummyChannel.closed, DummyChannel.close, Event.is_set_in. simpl.
  by rewrite lookup_insert_eq.
Qed.

Lemma send_when_closed self message w :
  DummyChannel.closed self w = true →
  DummyChannel.send self message w = (Raise ChannelClosed, w).
Proof.
  intros Hc. unfold DummyChannel.send, bind, Event.is_set, gets.
  unfold DummyChannel.closed in Hc. by rewrite Hc.
Qed.

(** C1 (symmetric and idempotent close).  For the pair of channels built by a
    successful [connect]: in every run that follows the connection and
    contains at least one [close()] on either endpoint, however many more
    closes and whatever other operations it contains, [closed] reads true on
    both endpoints at the end of the run and [send] on either endpoint raises
    [ChannelClosed], leaving the store as it is. *)
Theorem close_is_symmetric_and_idempotent dest_address local_address w client w1 :
  DummyClient.connect dest_address local_address w = (Return client, w1) →
  ∃ server_channel,
    server_channel_of w1 client = Some server_channel ∧
    DummyChannel.closed (cl_channel client) w1 = false ∧
    DummyChannel.closed server_channel w1 = false ∧
    ∀ (closer observer : DummyChannel) (ops : list op) (message : pyval),
      closer ∈ [cl_channel client; server_channel] →
      observer ∈ [cl_channel client; server_channel] →
      Close closer ∈ ops →
      DummyChannel.closed observer (run ops w1) = true ∧
      DummyChannel.send observer message (run ops w1)
        = (Raise ChannelClosed, run ops w1).
Proof.
  intros Hconn. apply connect_inv in Hconn.
  destruct Hconn as (server & _ & _ & _ & Hch & Htask & Htk & _ & Hev & _).
  eexists. split; [|split; [|split]].
  - unfold server_channel_of. rewrite Htask, Htk. reflexivity.
  - unfold DummyChannel.closed, Event.is_set_in.
    rewrite Hch, Hev. simpl. by rewrite lookup_insert_eq.
  - unfold DummyChannel.closed, Event.is_set_in.
    rewrite Hev. simpl. by rewrite lookup_insert_eq.
  - intros closer observer ops message Hcl Hob Hin.
    assert (ch_closed observer = ch_closed closer) as Hsame.
    { rewrite Hch in Hcl, Hob.
      apply elem_of_cons in Hcl as [Hcl|Hcl%list_elem_of_singleton];
        apply elem_of_cons in Hob as [Hob|Hob%list_elem_of_singleton];
        by rewrite Hcl, Hob. }
    assert (DummyChannel.closed observer (run ops w1) = true) as Hclosed.
    { apply list_elem_of_split in Hin as (pre & post & ->).
      rewrite run_app. simpl. apply flags_kept_run.
      unfold DummyChannel.closed. rewrite Hsame.
      apply (closed_after_close closer). }
    split; [exact Hclosed|by apply send_when_closed].
Qed.

Lemma close_is_symmetric_and_idempotent_witness :
  DummyClient.connect "dummy://a" None example_served
    = (Return example_client, example_connected) ∧
  ∃ server_channel,
    server_channel_of example_connected example_client = Some server_channel ∧
    DummyChannel.closed (cl_channel example_client) example_connected = false ∧
    DummyChannel.closed server_channel example_connected = false ∧
    ∀ (closer observer : DummyChannel) (ops : list op) (message : pyval),
      closer ∈ [cl_channel example_client; server_channel] →
      observer ∈ [cl_channel example_client; server_channel] →
      Close closer ∈ ops →
      DummyChannel.closed observer (run ops example_connected) = true ∧
      DummyChannel.send observer message (run ops example_connected)
        = (Raise ChannelClosed, run ops example_connected).
Proof.
  split; [vm_compute; reflexivity|].
  apply (close_is_symmetric_and_idempotent "dummy://a" None example_served).
  vm_compute. reflexivity.
Defined.
(** ** Queues deliver in order *)

Lemma items_insert_eq q l w :
  Queue.items (with_queues (insert q l) w) q = l.
Proof. unfold Queue.items. simpl. by rewrite lookup_insert_eq. Qed.

Lemma send_when_open self message w :
  DummyChannel.closed self w = false →
  DummyChannel.send self message w
    = (Return tt,
       with_queues (insert (ch_out_queue self)
                      (Queue.items w (ch_out_queue self) ++ [message])) w).
Proof.
  intros Hc. unfold DummyChannel.send, bind, Event.is_set, gets.
  unfold DummyChannel.closed in Hc. by rewrite Hc.
Qed.

Lemma send_all_when_open self messages w :
  DummyChannel.closed self w = false →
  ∃ w', send_all self messages w = (Return tt, w') ∧
        events w' = events w ∧
        Queue.items w' (ch_out_queue self)
          = Queue.items w (ch_out_queue self) ++ messages.
Proof.
  revert w. induction messages as [|m ms IH]; intros w Hc.
  - exists w. by rewrite app_nil_r.
  - unfold send_all. simpl. unfold bind. rewrite send_when_open by done.
    destruct (IH (with_queues (insert (ch_out_queue self)
                     (Queue.items w (ch_out_queue self) ++ [m])) w))
      as (w' & Hrun & Hev & Hitems); [done|].
    exists w'. split; [exact Hrun|]. split; [by rewrite Hev|].
    rewrite Hitems, items_insert_eq. by rewrite <- app_assoc.
Qed.

Lemma recv_when_open_nonempty self m rest w :
  DummyChannel.closed self w = false →
  Queue.items w (ch_in_queue self) = m :: rest →
  DummyChannel.recv self w
    = (Done (Return m), with_queues (insert (ch_in_queue self) rest) w).
Proof.
  intros Hc Hq. unfold DummyChannel.recv, Queue.get.
  unfold DummyChannel.closed in Hc. by rewrite Hc, Hq.
Qed.

Lemma recv_when_open_empty self w :
  DummyChannel.closed self w = false →
  Queue.items w (ch_in_queue self) = [] →
  DummyChannel.recv self w = (Suspend, w).
Proof.
  intros Hc Hq. unfold DummyChannel.recv, Queue.get.
  unfold DummyChannel.closed in Hc. by rewrite Hc, Hq.
Qed.

Lemma recv_n_delivers self messages rest w :
  DummyChannel.closed self w = false →
  Queue.items w (ch_in_queue self) = messages ++ rest →
  ∃ w', recv_n self (length messages) w
          = (map (λ m, Done (Return m)) messages, w') ∧
        events w' = events w ∧
        Queue.items w' (ch_in_queue self) = rest.
Proof.
  revert w. induction messages as [|m ms IH]; intros w Hc Hq.
  - by exists w.
  - simpl. rewrite (recv_when_open_nonempty self m (ms ++ rest)) by done.
    destruct (IH (with_queues (insert (ch_in_queue self) (ms ++ rest)) w))
      as (w' & Hrun & Hev & Hitems); [done|apply items_insert_eq|].
    exists w'. rewrite Hrun. by rewrite Hev.
Qed.

Lemma closed_same_events self w w' :
  events w' = events w → DummyChannel.closed self w' = DummyChannel.closed self w.
Proof. intros Heq. unfold DummyChannel.closed, Event.is_set_in. by rewrite Heq. Qed.


(** ** Looking a server up *)

Lemma connect_unregistered dest_address local_address w :
  urlparse_scheme dest_address = DummyServer.scheme →
  _address_to_instances w !! dest_address = None →
  DummyClient.connect dest_address local_address w = (Raise KeyError, w).
Proof.
  intros Hs Hreg. unfold DummyClient.connect.
  case_decide; [done|].
  unfold bind, DummyServer.get_instance. by rewrite Hreg.
Qed.

(** The [raise RuntimeError] of [connect] cannot be reached: the lookup
    either raises [KeyError] or yields a server object. *)
Lemma connect_never_RuntimeError dest_address local_address w :
  fst (DummyClient.connect dest_address local_address w) ≠ Raise RuntimeError.
Proof.
  unfold DummyClient.connect. case_decide; [done|].
  unfold bind at 1. unfold DummyServer.get_instance.
  destruct (_address_to_instances w !! dest_address) as [server|]; [|done].
  unfold bind at 1. unfold gets.
  destruct (DummyServer.stopped server w); [done|].
  cbv [bind Queue.new Event.new AsyncTask.create_task DummyClient.__init__
       DummyClient.set_task modify AsyncTask.add_done_callback ret].
  simpl. rewrite lookup_insert_eq. done.
Qed.

(** C3 (missing server).  [connect("dummy://nope")] in a process where no
    server was ever created: the scheme is valid and nothing is registered at
    the address.  The call fails, but with the [KeyError] of the registry
    lookup in [get_instance]; the error the function itself raises for a
    missing server, the [RuntimeError] guarded by [server is None], is raised
    on no input at all. *)
Theorem connect_missing_server_raises_KeyError :
  urlparse_scheme "dummy://nope" = DummyServer.scheme ∧
  _address_to_instances empty_world !! "dummy://nope" = None ∧
  DummyClient.connect "dummy://nope" None empty_world = (Raise KeyError, empty_world) ∧
  ∀ dest_address local_address w,
    fst (DummyClient.connect dest_address local_address w) ≠ Raise RuntimeError.
Proof.
  split; [reflexivity|]. split; [reflexivity|].
  split; [by apply connect_unregistered|].
  apply connect_never_RuntimeError.
Qed.

(** C4 (stopped server).  When the server registered at a valid address is
    stopped, [connect] raises [ConnectionError] and the store is left exactly
    as it was: no queue, flag, channel or task is created and nothing is added
    to the server's [_tasks]. *)
Theorem connect_to_stopped_server_refused dest_address local_address w server :
  urlparse_scheme dest_address = DummyServer.scheme →
  _address_to_instances w !! dest_address = Some server →
  DummyServer.stopped server w = true →
  DummyClient.connect dest_address local_address w = (Raise ConnectionError, w).
Proof.
  intros Hs Hreg Hst. unfold DummyClient.connect.
  case_decide; [done|].
  unfold bind, DummyServer.get_instance, gets. by rewrite Hreg, Hst.
Qed.

Lemma connect_to_stopped_server_refused_witness :
  urlparse_scheme "dummy://a" = DummyServer.scheme ∧
  _address_to_instances example_stopped !! "dummy://a" = Some example_server ∧
  DummyServer.stopped example_server example_stopped = true ∧
  DummyClient.connect "dummy://a" None example_stopped
    = (Raise ConnectionError, example_stopped).
Proof.
  assert (urlparse_scheme "dummy://a" = DummyServer.scheme) as Hs
    by reflexivity.
  assert (_address_to_instances example_stopped !! "dummy://a"
            = Some example_server) as Hreg by (vm_compute; reflexivity).
  assert (DummyServer.stopped example_server example_stopped = true) as Hst
    by (vm_compute; reflexivity).
  split; [exact Hs|]. split; [exact Hreg|]. split; [exact Hst|].
  exact (connect_to_stopped_server_refused "dummy://a" None example_stopped
           example_server Hs Hreg Hst).
Defined.
(** ** Creating servers *)

(** On a well-formed configuration [create] comes down to its
    [try]/[except] block. *)
Lemma create_well_formed config address handler w :
  DummyServer.config_address config = PyStr address →
  config !! "handle_channel" = Some handler →
  delete "handle_channel" (delete "address" config) = ∅ →
  urlparse_scheme address = DummyServer.scheme →
  DummyServer.create config w
    = try_except (DummyServer.create_lookup address)
                 (λ e, bool_decide (e = KeyError))
                 (DummyServer.create_fresh address handler) w.
Proof.
  intros Ha Hh Hextra Hs. unfold DummyServer.create.
  rewrite lookup_delete_ne by done. rewrite Hh, Ha.
  case_decide; [done|]. case_decide; done.
Qed.

Lemma create_returns_inv config w server w1 :
  DummyServer.create config w = (Return server, w1) →
  ∃ address handler,
    DummyServer.config_address config = PyStr address ∧
    config !! "handle_channel" = Some handler ∧
    urlparse_scheme address = DummyServer.scheme ∧
    DummyServer.create config w
      = try_except (DummyServer.create_lookup address)
                   (λ e, bool_decide (e = KeyError))
                   (DummyServer.create_fresh address handler) w.
Proof.
  unfold DummyServer.create.
  destruct (delete "address" config !! "handle_channel") as [handler|] eqn:Hh;
    [|done].
  rewrite lookup_delete_ne in Hh by done.
  destruct (DummyServer.config_address config) as [| | |address|] eqn:Ha;
    try by (simpl; repeat case_match).
  case_decide as Hs; [done|]. case_decide as Hextra; [done|].
  intros _. by exists address, handler.
Qed.

Lemma create_lookup_live address server w :
  _address_to_instances w !! address = Some server →
  DummyServer.stopped server w = false →
  DummyServer.create_lookup address w = (Return server, w).
Proof.
  intros Hreg Hst.
  unfold DummyServer.create_lookup, bind, DummyServer.get_instance, gets.
  by rewrite Hreg, Hst.
Qed.

Lemma create_lookup_stopped address server w :
  _address_to_instances w !! address = Some server →
  DummyServer.stopped server w = true →
  DummyServer.create_lookup address w = (Raise KeyError, w).
Proof.
  intros Hreg Hst.
  unfold DummyServer.create_lookup, bind, DummyServer.get_instance, gets.
  by rewrite Hreg, Hst.
Qed.

Lemma create_lookup_missing address w :
  _address_to_instances w !! address = None →
  DummyServer.create_lookup address w = (Raise KeyError, w).
Proof.
  intros Hreg.
  unfold DummyServer.create_lookup, bind, DummyServer.get_instance.
  by rewrite Hreg.
Qed.

(** The server built by the [except KeyError] branch. *)
Lemma create_fresh_spec address handler w :
  ∃ server w',
    DummyServer.create_fresh address handler w = (Return server, w') ∧
    (srv_id server ∉ dom (server_sets w)) ∧
    (srv_closed server ∉ dom (events w)) ∧
    srv_address server = address ∧
    srv_channel_handler server = handler ∧
    _address_to_instances w' !! address = Some server ∧
    DummyServer.stopped server w' = false ∧
    DummyServer._tasks w' server = ∅ ∧
    DummyServer._channels w' server = [].
Proof.
  eexists _, _. split; [reflexivity|]. simpl. split_and!; try done.
  - apply is_fresh.
  - apply is_fresh.
  - by rewrite lookup_insert_eq.
  - unfold DummyServer.stopped, Event.is_set_in. simpl.
    by rewrite lookup_insert_eq.
  - unfold DummyServer._tasks, DummyServer.sets_of. simpl.
    by rewrite lookup_insert_eq.
  - unfold DummyServer._channels, DummyServer.sets_of. simpl.
    by rewrite lookup_insert_eq.
Qed.

Lemma stopped_has_event server w :
  DummyServer.stopped server w = true → srv_closed server ∈ dom (events w).
Proof.
  unfold DummyServer.stopped, Event.is_set_in. intros H.
  apply elem_of_dom. destruct (events w !! srv_closed server); [eauto|done].
Qed.

(** After a successful [create], the server is registered at the address and
    is not stopped. *)
Lemma create_registers config address w server w1 :
  DummyServer.config_address config = PyStr address →
  DummyServer.create config w = (Return server, w1) →
  urlparse_scheme address = DummyServer.scheme ∧
  _address_to_instances w1 !! address = Some server ∧
  DummyServer.stopped server w1 = false.
Proof.
  intros Ha Hcreate.
  destruct (create_returns_inv _ _ _ _ Hcreate) as (a & h & Ha' & Hh & Hs & Heq).
  rewrite Ha in Ha'. injection Ha' as <-. split; [exact Hs|].
  rewrite Heq in Hcreate. clear Heq. unfold try_except in Hcreate.
  destruct (_address_to_instances w !! address) as [old|] eqn:Hreg.
  - destruct (DummyServer.stopped old w) eqn:Hst.
    + rewrite (create_lookup_stopped _ _ _ Hreg Hst) in Hcreate. simpl in Hcreate.
      destruct (create_fresh_spec address h w)
        as (s' & w' & Hf & _ & _ & _ & _ & Hreg' & Hst' & _).
      rewrite Hf in Hcreate. by simplify_eq.
    + rewrite (create_lookup_live _ _ _ Hreg Hst) in Hcreate. by simplify_eq.
  - rewrite (create_lookup_missing _ _ Hreg) in Hcreate. simpl in Hcreate.
    destruct (create_fresh_spec address h w)
      as (s' & w' & Hf & _ & _ & _ & _ & Hreg' & Hst' & _).
    rewrite Hf in Hcreate. by simplify_eq.
Qed.

(** C5 (idempotent singleton per address).  After [create] has returned a
    server for address [A], the server is registered at [A] and not stopped;
    and in any later store where it is still the one registered at [A], a
    [create] with a well-formed configuration for [A] returns that very
    object and changes nothing while the server is not stopped, and builds
    and registers a new, unstopped server, distinct from the old one, when it
    is stopped. *)
Theorem create_is_idempotent_singleton config address w server w1 :
  DummyServer.config_address config = PyStr address →
  DummyServer.create config w = (Return server, w1) →
  _address_to_instances w1 !! address = Some server ∧
  DummyServer.stopped server w1 = false ∧
  ∀ config' handler' w2,
    DummyServer.config_address config' = PyStr address →
    config' !! "handle_channel" = Some handler' →
    delete "handle_channel" (delete "address" config') = ∅ →
    _address_to_instances w2 !! address = Some server →
    (DummyServer.stopped server w2 = false →
       DummyServer.create config' w2 = (Return server, w2)) ∧
    (DummyServer.stopped server w2 = true →
       ∃ server' w3,
         DummyServer.create config' w2 = (Return server', w3) ∧
         server' ≠ server ∧
         (srv_id server' ∉ dom (server_sets w2)) ∧
         srv_address server' = address ∧
         srv_channel_handler server' = handler' ∧
         _address_to_instances w3 !! address = Some server' ∧
         DummyServer.stopped server' w3 = false).
Proof.
  intros Ha Hcreate.
  destruct (create_registers _ _ _ _ _ Ha Hcreate) as (Hs & Hreg1 & Hst1).
  split; [exact Hreg1|]. split; [exact Hst1|].
  intros config' handler' w2 Ha' Hh' Hextra Hreg2.
  rewrite (create_well_formed config' address handler') by done.
  unfold try_except. split; intros Hst2.
  - by rewrite (create_lookup_live _ _ _ Hreg2 Hst2).
  - rewrite (create_lookup_stopped _ _ _ Hreg2 Hst2). simpl.
    destruct (create_fresh_spec address handler' w2)
      as (s' & w3 & Hf & Hid & Hev & Haddr & Hhandler & Hreg3 & Hst3 & _).
    exists s', w3. split_and!; try done.
    intros ->. apply Hev. by apply stopped_has_event.
Qed.

Lemma create_is_idempotent_singleton_witness :
  DummyServer.config_address example_config = PyStr "dummy://a" ∧
  DummyServer.create example_config empty_world
    = (Return example_server, example_served) ∧
  _address_to_instances example_served !! "dummy://a" = Some example_server ∧
  DummyServer.stopped example_server example_served = false ∧
  ∀ config' handler' w2,
    DummyServer.config_address config' = PyStr "dummy://a" →
    config' !! "handle_channel" = Some handler' →
    delete "handle_channel" (delete "address" config') = ∅ →
    _address_to_instances w2 !! "dummy://a" = Some example_server →
    (DummyServer.stopped example_server w2 = false →
       DummyServer.create config' w2 = (Return example_server, w2)) ∧
    (DummyServer.stopped example_server w2 = true →
       ∃ server' w3,
         DummyServer.create config' w2 = (Return server', w3) ∧
         server' ≠ example_server ∧
         (srv_id server' ∉ dom (server_sets w2)) ∧
         srv_address server' = "dummy://a" ∧
         srv_channel_handler server' = handler' ∧
         _address_to_instances w3 !! "dummy://a" = Some server' ∧
         DummyServer.stopped server' w3 = false).
Proof.
  assert (DummyServer.config_address example_config = PyStr "dummy://a") as Ha
    by (vm_compute; reflexivity).
  assert (DummyServer.create example_config empty_world
            = (Return example_server, example_served)) as Hcreate
    by (vm_compute; reflexivity).
  split; [exact Ha|]. split; [exact Hcreate|].
  exact (create_is_idempotent_singleton example_config "dummy://a" empty_world
           example_server example_served Ha Hcreate).
Defined.

Example create_twice_same_object :
  DummyServer.create example_config example_served
    = (Return example_server, example_served).
Proof. vm_compute. reflexivity. Qed.

Example create_after_stop_new_object :
  fst (DummyServer.create example_config example_stopped)
    = Return (mkServer 1 "dummy://a" (PyCallable 0) 1).
Proof. vm_compute. reflexivity. Qed.
(** ** Accepting a connection *)

Lemma weakset_add_In channel l : channel ∈ DummyServer.weakset_add channel l.
Proof.
  unfold DummyServer.weakset_add. case_decide; [done|].
  apply elem_of_app. right. by apply list_elem_of_singleton.
Qed.

Lemma weakset_add_mono channel c l : c ∈ l → c ∈ DummyServer.weakset_add channel l.
Proof.
  unfold DummyServer.weakset_add. intros Hc. case_decide; [done|].
  apply elem_of_app. by left.
Qed.

Lemma channels_after_add self channel w :
  DummyServer._channels (DummyServer.add_channel self channel w) self
    = DummyServer.weakset_add channel (DummyServer._channels w self).
Proof.
  unfold DummyServer._channels at 1. unfold DummyServer.sets_of,
    DummyServer.add_channel. simpl. by rewrite lookup_insert_eq.
Qed.

(** C6 (acceptance after stop).  [on_connected] raises [ServerClosed], and
    does nothing else, whenever the server is stopped, whatever its
    arguments.  On a server that is not stopped and has a handler, the call
    [on_connected(channel)] adds the channel to [_channels], keeps the
    channels that were tracked, and reaches the [await] of the handler
    applied to that channel. *)
Theorem on_connected_accepts_unless_stopped self args kwargs w :
  (DummyServer.stopped self w = true →
     DummyServer.on_connected self args kwargs w
       = (AcceptDone (Raise ServerClosed), w)) ∧
  (DummyServer.stopped self w = false →
     ∀ channel handler,
       args = [ArgChannel channel] → kwargs = [] →
       srv_channel_handler self = PyCallable handler →
       DummyServer.on_connected self args kwargs w
         = (AwaitHandler handler channel, DummyServer.add_channel self channel w) ∧
       channel ∈ DummyServer._channels (DummyServer.add_channel self channel w) self ∧
       (∀ c, c ∈ DummyServer._channels w self →
             c ∈ DummyServer._channels (DummyServer.add_channel self channel w) self)).
Proof.
  unfold DummyServer.on_connected, DummyServer.stopped. split.
  - by intros ->.
  - intros -> channel handler -> -> ->. rewrite channels_after_add.
    split; [done|]. split; [apply weakset_add_In|].
    intros c. apply weakset_add_mono.
Qed.

Lemma on_connected_accepts_unless_stopped_witness :
  (DummyServer.stopped example_server example_stopped = true ∧
   DummyServer.on_connected example_server [ArgChannel (mkChannel 1 0 1 None None)] []
       example_stopped
     = (AcceptDone (Raise ServerClosed), example_stopped)) ∧
  (DummyServer.stopped example_server example_connected = false ∧
   DummyServer.on_connected example_server [ArgChannel (mkChannel 1 0 1 None None)] []
       example_connected
     = (AwaitHandler 0 (mkChannel 1 0 1 None None),
        DummyServer.add_channel example_server (mkChannel 1 0 1 None None)
          example_connected) ∧
   mkChannel 1 0 1 None None
     ∈ DummyServer._channels
         (DummyServer.add_channel example_server (mkChannel 1 0 1 None None)
            example_connected) example_server).
Proof.
  assert (DummyServer.stopped example_server example_stopped = true) as Hst
    by (vm_compute; reflexivity).
  assert (DummyServer.stopped example_server example_connected = false) as Hlive
    by (vm_compute; reflexivity).
  split.
  - split; [exact Hst|].
    exact (proj1 (on_connected_accepts_unless_stopped example_server
                    [ArgChannel (mkChannel 1 0 1 None None)] [] example_stopped) Hst).
  - split; [exact Hlive|].
    destruct (proj2 (on_connected_accepts_unless_stopped example_server
                       [ArgChannel (mkChannel 1 0 1 None None)] [] example_connected)
                Hlive (mkChannel 1 0 1 None None) 0 eq_refl eq_refl eq_refl)
      as (Hrun & Hin & _).
    split; [exact Hrun|exact Hin].
Defined.

(** ** Joining *)



(** ** Receiving *)

(** C10 (RuntimeError during the wait of [recv]).  When the wait inside
    [recv] is ended by a [RuntimeError], [recv] returns [None] and leaves the
    store alone, whatever the closed flag reads at that moment: the test of
    the flag in the handler selects nothing. *)
Theorem recv_swallows_RuntimeError (self : DummyChannel) (w : World) :
  DummyChannel.recv_resume self (Thrown RuntimeError) w = (Done (Return PyNone), w).
Proof.
  unfold DummyChannel.recv_resume, DummyChannel.recv_try. simpl.
  by destruct (Event.is_set_in w (ch_closed self)).
Qed.

Example recv_RuntimeError_on_open_channel :
  DummyChannel.closed (cl_channel example_client) example_connected = false ∧
  DummyChannel.recv (cl_channel example_client) example_connected
    = (Suspend, example_connected) ∧
  DummyChannel.recv_resume (cl_channel example_client) (Thrown RuntimeError)
      example_connected
    = (Done (Return PyNone), example_connected).
Proof. vm_compute. done. Qed.

Lemma recv_other_exception_propagates self e w :
  e ≠ RuntimeError →
  DummyChannel.recv_resume self (Thrown e) w = (Done (Raise e), w).
Proof.
  intros He. unfold DummyChannel.recv_resume, DummyChannel.recv_try. simpl.
  by destruct e.
Qed.
(** ** The store after [stop] *)

Lemma world_eta w :
  mkWorld (events w) (queues w) (tasks w) (server_sets w) (client_task w)
          (_address_to_instances w) = w.
Proof. by destruct w. Qed.

Lemma request_cancel_idemp tk :
  AsyncTask.request_cancel (AsyncTask.request_cancel tk) = AsyncTask.request_cancel tk.
Proof. unfold AsyncTask.request_cancel. by destruct tk as [? ? [] ? ?]. Qed.

Lemma cancel_world t w :
  AsyncTask.cancel t w
    = (Return (AsyncTask.pending_in w t),
       with_tasks (alter AsyncTask.request_cancel t) w).
Proof.
  unfold AsyncTask.cancel, AsyncTask.pending_in.
  destruct (tasks w !! t) as [tk|] eqn:Htk.
  - assert (alter AsyncTask.request_cancel t (tasks w)
              = <[t:=AsyncTask.request_cancel tk]> (tasks w)) as Halter.
    { apply map_eq. intros t'. rewrite lookup_alter, lookup_insert.
      case_decide; [subst; by rewrite Htk|done]. }
    unfold with_tasks. rewrite Halter. unfold AsyncTask.request_cancel.
    destruct (task_state_of tk) eqn:Hst; try done.
    rewrite insert_id by done. by rewrite world_eta.
  - unfold with_tasks.
    assert (alter AsyncTask.request_cancel t (tasks w) = tasks w) as ->.
    { apply map_eq. intros t'. rewrite lookup_alter.
      case_decide; [subst; by rewrite Htk|done]. }
    by rewrite world_eta.
Qed.
Lemma cancel_all_lookup ts m t :
  cancel_all ts m !! t
    = if decide (t ∈ ts) then AsyncTask.request_cancel <$> m !! t else m !! t.
Proof.
  revert m. induction ts as [|t' ts IH]; intros m.
  - done.
  - change (cancel_all (t' :: ts) m)
      with (cancel_all ts (alter AsyncTask.request_cancel t' m)).
    rewrite IH, lookup_alter.
    destruct (decide (t' = t)) as [->|Hne].
    + rewrite (decide_True (P := t ∈ t :: ts)) by (apply elem_of_cons; by left).
      destruct (decide (t ∈ ts)); [|done].
      destruct (m !! t) as [tk|]; simpl; [|done].
      by rewrite request_cancel_idemp.
    + destruct (decide (t ∈ ts)) as [Hin|Hnin].
      * by rewrite (decide_True (P := t ∈ t' :: ts)) by (apply elem_of_cons; by right).
      * rewrite (decide_False (P := t ∈ t' :: ts)); [done|].
        intros [?|?]%elem_of_cons; [congruence|done].
Qed.

Lemma set_all_lookup es m e :
  set_all es m !! e = if decide (e ∈ es) then Some true else m !! e.
Proof.
  revert m. induction es as [|e' es IH]; intros m.
  - done.
  - change (set_all (e' :: es) m) with (set_all es (<[e':=true]> m)).
    rewrite IH, lookup_insert.
    destruct (decide (e' = e)) as [->|Hne].
    + rewrite (decide_True (P := e ∈ e :: es)) by (apply elem_of_cons; by left).
      by destruct (decide (e ∈ es)).
    + destruct (decide (e ∈ es)) as [Hin|Hnin].
      * by rewrite (decide_True (P := e ∈ e' :: es)) by (apply elem_of_cons; by right).
      * rewrite (decide_False (P := e ∈ e' :: es)); [done|].
        intros [?|?]%elem_of_cons; [congruence|done].
Qed.

Lemma for_each_cancel ts w :
  for_each (λ t, AsyncTask.cancel t ;; ret tt) ts w
    = (Return tt, with_tasks (cancel_all ts) w).
Proof.
  revert w. induction ts as [|t ts IH]; intros w; simpl.
  - unfold ret, with_tasks. simpl. by rewrite world_eta.
  - unfold bind at 1. unfold bind at 1. rewrite cancel_world. simpl.
    by rewrite IH.
Qed.

Lemma for_each_close chs w :
  for_each DummyChannel.close chs w
    = (Return tt, with_events (set_all (map ch_closed chs)) w).
Proof.
  revert w. induction chs as [|c chs IH]; intros w; simpl.
  - unfold ret, with_events. simpl. by rewrite world_eta.
  - unfold bind at 1. simpl. by rewrite IH.
Qed.

(** The store when [stop] reaches its [await], in closed form. *)
Lemma stop_begin_world self w :
  DummyServer.stop_begin self w
    = (Return (DummyServer._channels w self),
       with_tasks (cancel_all (elements (DummyServer._tasks w self)))
         (with_events (insert (srv_closed self) true) w)).
Proof.
  unfold DummyServer.stop_begin.
  cbv [bind Event.set modify gets]. by rewrite for_each_cancel.
Qed.

(** The store [stop] leaves, in closed form; [stop] itself never raises. *)
Lemma stop_world self w :
  DummyServer.stop self w
    = (Return tt,
       with_events (set_all (map ch_closed (DummyServer._channels w self)))
         (with_tasks (cancel_all (elements (DummyServer._tasks w self)))
            (with_events (insert (srv_closed self) true) w))).
Proof.
  unfold DummyServer.stop, bind. rewrite stop_begin_world.
  by rewrite for_each_close.
Qed.

Lemma run_closes chs w :
  run (map Close chs) w = snd (for_each DummyChannel.close chs w).
Proof.
  revert w. induction chs as [|c chs IH]; intros w; simpl; [done|].
  rewrite IH. by unfold bind.
Qed.

(** Run to its end, [stop] is [stop_begin] followed by the gathered
    closes. *)
Lemma stop_as_run self w :
  snd (DummyServer.stop self w)
    = run (map Close (DummyServer._channels w self))
          (snd (DummyServer.stop_begin self w)).
Proof.
  rewrite run_closes. unfold DummyServer.stop, bind.
  by rewrite stop_begin_world.
Qed.

Lemma set_all_insert_idemp es e (m : gmap nat bool) :
  set_all es (<[e:=true]> (set_all es (<[e:=true]> m))) = set_all es (<[e:=true]> m).
Proof.
  apply map_eq. intros x. rewrite !set_all_lookup.
  destruct (decide (x ∈ es)); [done|].
  rewrite !lookup_insert. destruct (decide (e = x)); [done|].
  rewrite set_all_lookup. rewrite decide_False by done.
  by rewrite lookup_insert_ne.
Qed.

Lemma cancel_all_idemp ts (m : gmap nat Task) :
  cancel_all ts (cancel_all ts m) = cancel_all ts m.
Proof.
  apply map_eq. intros t. rewrite !cancel_all_lookup.
  destruct (decide (t ∈ ts)); [|done].
  destruct (m !! t) as [tk|]; simpl; [|done].
  by rewrite request_cancel_idemp.
Qed.

Lemma stop_idempotent self w :
  DummyServer.stop self (snd (DummyServer.stop self w)) = DummyServer.stop self w.
Proof.
  rewrite (stop_world self w). simpl. rewrite stop_world.
  f_equal. unfold with_events, with_tasks, DummyServer._channels,
    DummyServer._tasks, DummyServer.sets_of. simpl.
  by rewrite set_all_insert_idemp, cancel_all_idemp.
Qed.

Lemma stopped_after_stop self w :
  DummyServer.stopped self (snd (DummyServer.stop self w)) = true.
Proof.
  rewrite stop_world. unfold DummyServer.stopped, Event.is_set_in. simpl.
  rewrite set_all_lookup. case_decide; [done|]. by rewrite lookup_insert_eq.
Qed.

(** C8 (monotonic stopped state).  [stop] makes [stopped] true, from its
    first statement on; once [stopped] reads true it reads true after every
    run of operations of the transport and of the event loop, further stops
    included; and a second [stop] returns normally and leaves the store
    exactly as the first one left it. *)
Theorem stopped_is_monotonic (self : DummyServer) (w : World) :
  DummyServer.stopped self (snd (DummyServer.stop_begin self w)) = true ∧
  DummyServer.stopped self (snd (DummyServer.stop self w)) = true ∧
  (∀ ops, DummyServer.stopped self w = true →
          DummyServer.stopped self (run ops w) = true) ∧
  DummyServer.stop self (snd (DummyServer.stop self w))
    = (Return tt, snd (DummyServer.stop self w)).
Proof.
  split.
  { rewrite stop_begin_world. unfold DummyServer.stopped, Event.is_set_in.
    simpl. by rewrite lookup_insert_eq. }
  split; [apply stopped_after_stop|]. split.
  - intros ops Hst. by apply flags_kept_run.
  - rewrite stop_idempotent. by rewrite stop_world.
Qed.

Lemma stopped_is_monotonic_witness :
  DummyServer.stopped example_server example_stopped = true ∧
  DummyServer.stopped example_server
    (run [Create example_config; Start example_server;
          Join example_server (Some 1%Z);
          OnConnected example_server [ArgChannel (mkChannel 1 0 1 None None)] [];
          Connect "dummy://a" None; Stop example_server]
         example_stopped) = true.
Proof.
  assert (DummyServer.stopped example_server example_stopped = true) as Hst
    by (vm_compute; reflexivity).
  split; [exact Hst|].
  destruct (stopped_is_monotonic example_server example_stopped)
    as (_ & _ & Hmono & _).
  exact (Hmono _ Hst).
Defined.
(** ** Cancellation is not taken back *)














Lemma stop_task_lookup self w t :
  t ∈ DummyServer._tasks w self →
  tasks (snd (DummyServer.stop self w)) !! t
    = AsyncTask.request_cancel <$> tasks w !! t.
Proof.
  intros Hin. rewrite stop_world. simpl. rewrite cancel_all_lookup.
  rewrite decide_True; [done|]. by apply elem_of_elements.
Qed.



(** * Further properties of the code *)

(** ** Outcomes of [connect] *)

(** The store a successful [connect] leaves, field by field. *)
Lemma connect_returns dest_address local_address w server :
  urlparse_scheme dest_address = DummyServer.scheme →
  _address_to_instances w !! dest_address = Some server →
  DummyServer.stopped server w = false →
  let q1 := fresh (dom (queues w)) in
  let q2 := fresh (dom (<[q1:=[]]> (queues w))) in
  let e := fresh (dom (events w)) in
  let t := fresh (dom (tasks w)) in
  let i := fresh (dom (client_task w)) in
  DummyClient.connect dest_address local_address w
    = (Return (mkClient i local_address (Some dest_address)
                 (mkChannel q1 q2 e local_address None)),
       mkWorld (<[e:=false]> (events w))
               (<[q2:=[]]> (<[q1:=[]]> (queues w)))
               (<[t:=mkTask server (mkChannel q2 q1 e None local_address)
                       Unstarted false [server]]> (tasks w))
               (<[srv_id server:=mkSets (DummyServer._channels w server)
                                   ({[t]} ∪ DummyServer._tasks w server)]>
                  (server_sets w))
               (<[i:=Some t]> (client_task w))
               (_address_to_instances w)).
Proof.
  intros Hs Hreg Hst. unfold DummyClient.connect.
  rewrite decide_False by (by intros ?).
  cbv [bind DummyServer.get_instance gets]. rewrite Hreg, Hst.
  cbv [bind Queue.new Event.new AsyncTask.create_task DummyClient.__init__
       DummyClient.set_task modify AsyncTask.add_done_callback ret].
  simpl. rewrite lookup_insert_eq. simpl.
  unfold with_tasks, DummyServer.add_task, with_server_sets, with_client_task.
  simpl. by rewrite !insert_insert_eq.
Qed.


(** ** The pair a connection is made of *)

Lemma fresh_not_in_dom {A} (m : gmap nat A) : m !! fresh (dom m) = None.
Proof. apply not_elem_of_dom. apply is_fresh. Qed.

Lemma connect_world dest_address local_address w client w1 :
  DummyClient.connect dest_address local_address w = (Return client, w1) →
  ∃ server,
    _address_to_instances w !! dest_address = Some server ∧
    DummyServer.stopped server w = false ∧
    let q1 := fresh (dom (queues w)) in
    let q2 := fresh (dom (<[q1:=[]]> (queues w))) in
    let e := fresh (dom (events w)) in
    let t := fresh (dom (tasks w)) in
    let i := fresh (dom (client_task w)) in
    client = mkClient i local_address (Some dest_address)
               (mkChannel q1 q2 e local_address None) ∧
    w1 = mkWorld (<[e:=false]> (events w))
               (<[q2:=[]]> (<[q1:=[]]> (queues w)))
               (<[t:=mkTask server (mkChannel q2 q1 e None local_address)
                       Unstarted false [server]]> (tasks w))
               (<[srv_id server:=mkSets (DummyServer._channels w server)
                                   ({[t]} ∪ DummyServer._tasks w server)]>
                  (server_sets w))
               (<[i:=Some t]> (client_task w))
               (_address_to_instances w).
Proof.
  intros Hconn.
  destruct (connect_inv _ _ _ _ _ Hconn) as (server & Hs & Hreg & Hst & _).
  exists server. split; [done|]. split; [done|].
  pose proof (connect_returns dest_address local_address w server Hs Hreg Hst)
    as Hret.
  simpl in *. rewrite Hret in Hconn. by injection Hconn as <- <-.
Qed.

Lemma fresh_queues_differ (m : gmap nat (list pyval)) :
  fresh (dom m) ≠ fresh (dom (<[fresh (dom m):=[]]> m)).
Proof.
  intros Heq. apply (is_fresh (dom (<[fresh (dom m):=[]]> m))).
  rewrite <- Heq at 1. rewrite dom_insert_L.
  apply elem_of_union_l. by apply elem_of_singleton.
Qed.

Lemma fresh_second_not_in_dom (m : gmap nat (list pyval)) :
  m !! fresh (dom (<[fresh (dom m):=[]]> m)) = None.
Proof.
  apply not_elem_of_dom. intros Hin.
  apply (is_fresh (dom (<[fresh (dom m):=[]]> m))).
  by apply dom_insert_subseteq.
Qed.

(** X2.  A successful [connect] builds its pair from new objects only: two
    distinct queues and one flag, none of which existed before, the queues
    empty and the flag unset; the two channels are crossed (the inbound queue
    of each is the outbound queue of the other) and share the flag; the
    client side carries [local_address] as its local address and the server
    side carries it as its destination address. *)
Theorem connect_builds_fresh_crossed_pair dest_address local_address w client w1 :
  DummyClient.connect dest_address local_address w = (Return client, w1) →
  ∃ server_channel,
    server_channel_of w1 client = Some server_channel ∧
    ch_in_queue (cl_channel client) = ch_out_queue server_channel ∧
    ch_out_queue (cl_channel client) = ch_in_queue server_channel ∧
    ch_closed (cl_channel client) = ch_closed server_channel ∧
    ch_in_queue (cl_channel client) ≠ ch_out_queue (cl_channel client) ∧
    queues w !! ch_in_queue (cl_channel client) = None ∧
    queues w !! ch_out_queue (cl_channel client) = None ∧
    events w !! ch_closed (cl_channel client) = None ∧
    queues w1 !! ch_in_queue (cl_channel client) = Some [] ∧
    queues w1 !! ch_out_queue (cl_channel client) = Some [] ∧
    events w1 !! ch_closed (cl_channel client) = Some false ∧
    ch_local_address (cl_channel client) = local_address ∧
    ch_dest_address (cl_channel client) = None ∧
    ch_local_address server_channel = None ∧
    ch_dest_address server_channel = local_address.
Proof.
  intros Hconn.
  destruct (connect_world _ _ _ _ _ Hconn) as (server & _ & _ & -> & ->).
  eexists. split.
  { unfold server_channel_of, DummyClient._task. simpl.
    rewrite !lookup_insert_eq. reflexivity. }
  simpl. split_and!; try done.
  - apply fresh_queues_differ.
  - apply fresh_not_in_dom.
  - apply fresh_second_not_in_dom.
  - apply fresh_not_in_dom.
  - rewrite lookup_insert_ne by (apply not_eq_sym, fresh_queues_differ).
    by rewrite lookup_insert_eq.
  - by rewrite lookup_insert_eq.
  - by rewrite lookup_insert_eq.
Qed.

Lemma connect_builds_fresh_crossed_pair_witness :
  DummyClient.connect "dummy://a" None example_served
    = (Return example_client, example_connected) ∧
  ∃ server_channel,
    server_channel_of example_connected example_client = Some server_channel ∧
    ch_in_queue (cl_channel example_client) = ch_out_queue server_channel ∧
    ch_out_queue (cl_channel example_client) = ch_in_queue server_channel ∧
    ch_closed (cl_channel example_client) = ch_closed server_channel.
Proof.
  assert (DummyClient.connect "dummy://a" None example_served
            = (Return example_client, example_connected)) as Hconn
    by (vm_compute; reflexivity).
  split; [exact Hconn|].
  destruct (connect_builds_fresh_crossed_pair "dummy://a" None example_served
              example_client example_connected Hconn)
    as (sch & H1 & H2 & H3 & H4 & _).
  exists sch. split; [exact H1|]. split; [exact H2|]. split; [exact H3|exact H4].
Defined.

(** X3.  A successful [connect] disturbs nothing that existed: every queue,
    flag and task already in the store is as it was, the registry is
    unchanged, the sets of every other server are unchanged, and the server
    connected to keeps its channels and gains exactly the new accept task in
    [_tasks]. *)
Theorem connect_preserves_the_rest dest_address local_address w client w1 :
  DummyClient.connect dest_address local_address w = (Return client, w1) →
  (∀ q l, queues w !! q = Some l → queues w1 !! q = Some l) ∧
  (∀ e b, events w !! e = Some b → events w1 !! e = Some b) ∧
  (∀ t tk, tasks w !! t = Some tk → tasks w1 !! t = Some tk) ∧
  _address_to_instances w1 = _address_to_instances w ∧
  ∃ server t,
    _address_to_instances w !! dest_address = Some server ∧
    DummyClient._task w1 client = Some t ∧
    tasks w !! t = None ∧
    AsyncTask.pending_in w1 t = true ∧
    DummyServer._tasks w1 server = {[t]} ∪ DummyServer._tasks w server ∧
    DummyServer._channels w1 server = DummyServer._channels w server ∧
    (∀ other, srv_id other ≠ srv_id server →
       server_sets w1 !! srv_id other = server_sets w !! srv_id other).
Proof.
  intros Hconn.
  destruct (connect_world _ _ _ _ _ Hconn) as (server & Hreg & _ & -> & ->).
  simpl. split_and!; try done.
  - intros q l Hq. rewrite !lookup_insert_ne; [done| |].
    + intros <-. by rewrite fresh_not_in_dom in Hq.
    + intros <-. by rewrite fresh_second_not_in_dom in Hq.
  - intros e b He. rewrite lookup_insert_ne; [done|].
    intros <-. by rewrite fresh_not_in_dom in He.
  - intros t tk Ht. rewrite lookup_insert_ne; [done|].
    intros <-. by rewrite fresh_not_in_dom in Ht.
  - exists server, (fresh (dom (tasks w))). split_and!; try done.
    + unfold DummyClient._task. simpl. by rewrite lookup_insert_eq.
    + apply fresh_not_in_dom.
    + unfold AsyncTask.pending_in. simpl. by rewrite lookup_insert_eq.
    + unfold DummyServer._tasks at 1. unfold DummyServer.sets_of. simpl.
      by rewrite lookup_insert_eq.
    + unfold DummyServer._channels at 1. unfold DummyServer.sets_of. simpl.
      by rewrite lookup_insert_eq.
    + intros other Hne. by rewrite lookup_insert_ne.
Qed.

Lemma connect_preserves_the_rest_witness :
  DummyClient.connect "dummy://a" None example_served
    = (Return example_client, example_connected) ∧
  _address_to_instances example_connected = _address_to_instances example_served ∧
  (∀ e b, events example_served !! e = Some b →
          events example_connected !! e = Some b).
Proof.
  assert (DummyClient.connect "dummy://a" None example_served
            = (Return example_client, example_connected)) as Hconn
    by (vm_compute; reflexivity).
  split; [exact Hconn|].
  destruct (connect_preserves_the_rest "dummy://a" None example_served
              example_client example_connected Hconn)
    as (_ & Hev & _ & Hreg & _).
  split; [exact Hreg|exact Hev].
Defined.
(** ** Two connections do not interfere *)

(** Everything later proofs need to know about a successful [connect]. *)
Lemma connect_facts dest_address local_address w client w1 :
  DummyClient.connect dest_address local_address w = (Return client, w1) →
  ∃ q1 q2 e server_channel,
    cl_channel client = mkChannel q1 q2 e local_address None ∧
    server_channel = mkChannel q2 q1 e None local_address ∧
    server_channel_of w1 client = Some server_channel ∧
    q1 ≠ q2 ∧
    queues w !! q1 = None ∧ queues w !! q2 = None ∧ events w !! e = None ∧
    queues w1 !! q1 = Some [] ∧ queues w1 !! q2 = Some [] ∧
    events w1 !! e = Some false ∧
    (∀ q l, queues w !! q = Some l → queues w1 !! q = Some l) ∧
    (∀ e' b, events w !! e' = Some b → events w1 !! e' = Some b) ∧
    (∀ t tk, tasks w !! t = Some tk → tasks w1 !! t = Some tk) ∧
    (∀ i x, client_task w !! i = Some x → client_task w1 !! i = Some x).
Proof.
  intros Hconn.
  destruct (connect_world _ _ _ _ _ Hconn) as (server & _ & _ & -> & ->).
  eexists _, _, _, _. split; [reflexivity|]. split; [reflexivity|]. simpl.
  split_and!.
  - unfold server_channel_of, DummyClient._task. simpl.
    by rewrite !lookup_insert_eq.
  - apply fresh_queues_differ.
  - apply fresh_not_in_dom.
  - apply fresh_second_not_in_dom.
  - apply fresh_not_in_dom.
  - rewrite lookup_insert_ne by (apply not_eq_sym, fresh_queues_differ).
    by rewrite lookup_insert_eq.
  - by rewrite lookup_insert_eq.
  - by rewrite lookup_insert_eq.
  - intros q l Hq. rewrite !lookup_insert_ne; [done| |].
    + intros <-. by rewrite fresh_not_in_dom in Hq.
    + intros <-. by rewrite fresh_second_not_in_dom in Hq.
  - intros e' b He. rewrite lookup_insert_ne; [done|].
    intros <-. by rewrite fresh_not_in_dom in He.
  - intros t tk Ht. rewrite lookup_insert_ne; [done|].
    intros <-. by rewrite fresh_not_in_dom in Ht.
  - intros i x Hi. rewrite lookup_insert_ne; [done|].
    intros <-. by rewrite fresh_not_in_dom in Hi.
Qed.

Lemma server_channel_of_kept w w1 client server_channel :
  (∀ t tk, tasks w !! t = Some tk → tasks w1 !! t = Some tk) →
  (∀ i x, client_task w !! i = Some x → client_task w1 !! i = Some x) →
  server_channel_of w client = Some server_channel →
  server_channel_of w1 client = Some server_channel.
Proof.
  intros Ht Hc. unfold server_channel_of, DummyClient._task.
  destruct (client_task w !! cl_id client) as [[t|]|] eqn:Hi; try done.
  rewrite (Hc _ _ Hi).
  destruct (tasks w !! t) as [tk|] eqn:Htk; [|done].
  by rewrite (Ht _ _ Htk).
Qed.

Lemma closed_lookup self w b :
  events w !! ch_closed self = Some b → DummyChannel.closed self w = b.
Proof. unfold DummyChannel.closed, Event.is_set_in. by intros ->. Qed.

Lemma items_lookup w q l : queues w !! q = Some l → Queue.items w q = l.
Proof. unfold Queue.items. by intros ->. Qed.

Lemma closed_after_other_close a b w :
  ch_closed a ≠ ch_closed b →
  DummyChannel.closed b (snd (DummyChannel.close a w)) = DummyChannel.closed b w.
Proof.
  intros Hne. unfold DummyChannel.closed, DummyChannel.close, Event.is_set_in.
  simpl. by rewrite lookup_insert_ne.
Qed.

Lemma items_after_send a message w q :
  ch_out_queue a ≠ q →
  Queue.items (snd (DummyChannel.send a message w)) q = Queue.items w q.
Proof.
  intros Hne. unfold DummyChannel.send, bind, Event.is_set, gets.
  destruct (Event.is_set_in w (ch_closed a)); [done|].
  unfold Queue.items. simpl. by rewrite lookup_insert_ne.
Qed.

(** X4.  Two connections made one after the other share no queue and no
    flag: closing a channel of one leaves the channels of the other open, and
    a message sent on one connection, in either direction, reaches no queue
    of the other. *)
Theorem connections_are_isolated d1 l1 d2 l2 w c1 w1 c2 w2 :
  DummyClient.connect d1 l1 w = (Return c1, w1) →
  DummyClient.connect d2 l2 w1 = (Return c2, w2) →
  ∃ s1 s2,
    server_channel_of w2 c1 = Some s1 ∧
    server_channel_of w2 c2 = Some s2 ∧
    ∀ a b, a ∈ [cl_channel c1; s1] → b ∈ [cl_channel c2; s2] →
      ch_closed a ≠ ch_closed b ∧
      DummyChannel.closed b (snd (DummyChannel.close a w2)) = false ∧
      DummyChannel.closed a (snd (DummyChannel.close b w2)) = false ∧
      ∀ message,
        Queue.items (snd (DummyChannel.send a message w2)) (ch_in_queue b) = [] ∧
        Queue.items (snd (DummyChannel.send b message w2)) (ch_in_queue a) = [].
Proof.
  intros H1 H2.
  destruct (connect_facts _ _ _ _ _ H1)
    as (q1 & q2 & e & s1 & Hc1 & Hs1 & Hsch1 & Hq12 & _ & _ & _ & Hq1 & Hq2 & He
        & _ & _ & _ & _).
  destruct (connect_facts _ _ _ _ _ H2)
    as (q3 & q4 & e' & s2 & Hc2 & Hs2 & Hsch2 & Hq34 & Hq3 & Hq4 & He'
        & Hq3' & Hq4' & He'' & Hqs & Hes & Hts & Hcs).
  exists s1, s2. split; [by eapply server_channel_of_kept|]. split; [done|].
  intros a b Ha Hb.
  assert (ch_closed a = e ∧ ch_closed b = e' ∧
          (ch_in_queue a = q1 ∨ ch_in_queue a = q2) ∧
          (ch_out_queue a = q1 ∨ ch_out_queue a = q2) ∧
          (ch_in_queue b = q3 ∨ ch_in_queue b = q4) ∧
          (ch_out_queue b = q3 ∨ ch_out_queue b = q4))
    as (Hca & Hcb & Hia & Hoa & Hib & Hob).
  { rewrite Hc1, Hs1 in Ha. rewrite Hc2, Hs2 in Hb.
    apply elem_of_cons in Ha as [Ha|Ha%list_elem_of_singleton];
      apply elem_of_cons in Hb as [Hb|Hb%list_elem_of_singleton];
      rewrite Ha, Hb; simpl; split_and!; auto. }
  assert (e ≠ e') as Hee by (intros ->; congruence).
  assert (∀ x y, (x = q1 ∨ x = q2) → (y = q3 ∨ y = q4) → x ≠ y) as Hqq.
  { intros x y [->| ->] [->| ->] Heq; subst; congruence. }
  assert (events w2 !! e = Some false) as Hew2 by (by apply Hes).
  assert (∀ x, (x = q1 ∨ x = q2) → queues w2 !! x = Some []) as Hqa.
  { intros x [->| ->]; by apply Hqs. }
  assert (∀ y, (y = q3 ∨ y = q4) → queues w2 !! y = Some []) as Hqb.
  { by intros y [->| ->]. }
  split; [by rewrite Hca, Hcb|]. split_and!.
  - rewrite closed_after_other_close by (by rewrite Hca, Hcb).
    apply closed_lookup. by rewrite Hcb.
  - rewrite closed_after_other_close by (rewrite Hca, Hcb; by apply not_eq_sym).
    apply closed_lookup. by rewrite Hca.
  - intros message. split.
    + rewrite items_after_send by (by apply Hqq).
      apply items_lookup. by apply Hqb.
    + rewrite items_after_send by (apply not_eq_sym; by apply Hqq).
      apply items_lookup. by apply Hqa.
Qed.

Lemma connections_are_isolated_witness :
  DummyClient.connect "dummy://a" None example_served
    = (Return example_client, example_connected) ∧
  DummyClient.connect "dummy://a" (Some "me") example_connected
    = (Return (mkClient 1 (Some "me") (Some "dummy://a")
                 (mkChannel 2 3 2 (Some "me") None)),
       snd (DummyClient.connect "dummy://a" (Some "me") example_connected)) ∧
  ∃ s1 s2,
    server_channel_of
      (snd (DummyClient.connect "dummy://a" (Some "me") example_connected))
      example_client = Some s1 ∧
    server_channel_of
      (snd (DummyClient.connect "dummy://a" (Some "me") example_connected))
      (mkClient 1 (Some "me") (Some "dummy://a") (mkChannel 2 3 2 (Some "me") None))
      = Some s2.
Proof.
  assert (DummyClient.connect "dummy://a" None example_served
            = (Return example_client, example_connected)) as H1
    by (vm_compute; reflexivity).
  assert (DummyClient.connect "dummy://a" (Some "me") example_connected
    = (Return (mkClient 1 (Some "me") (Some "dummy://a")
                 (mkChannel 2 3 2 (Some "me") None)),
       snd (DummyClient.connect "dummy://a" (Some "me") example_connected))) as H2
    by (vm_compute; reflexivity).
  split; [exact H1|]. split; [exact H2|].
  destruct (connections_are_isolated _ _ _ _ _ _ _ _ _ H1 H2)
    as (s1 & s2 & Hs1 & Hs2 & _).
  exists s1, s2. split; [exact Hs1|exact Hs2].
Defined.
(** ** Traffic in both directions *)



(** ** Closing with messages in flight *)

(** X6.  The closed flag is tested when [recv] is entered and nowhere else.
    On an open pair, after messages [m :: rest] were sent one way and either
    endpoint was closed: a new [recv] on the receiving side raises
    [ChannelClosed] and the messages stay in the queue, undelivered; a [recv]
    that was already parked on the queue and is resumed now still returns
    [m]. *)
Theorem close_strands_queued_messages dest_address local_address w client w1
    server_channel :
  DummyClient.connect dest_address local_address w = (Return client, w1) →
  server_channel_of w1 client = Some server_channel →
  ∀ sender receiver closer m rest,
    (sender, receiver) ∈ [(cl_channel client, server_channel);
                          (server_channel, cl_channel client)] →
    closer ∈ [sender; receiver] →
    let w2 := snd (send_all sender (m :: rest) w1) in
    let w3 := snd (DummyChannel.close closer w2) in
    fst (send_all sender (m :: rest) w1) = Return tt ∧
    DummyChannel.recv receiver w3 = (Done (Raise ChannelClosed), w3) ∧
    Queue.items w3 (ch_in_queue receiver) = m :: rest ∧
    DummyChannel.recv_resume receiver Resumed w3
      = (Done (Return m), with_queues (insert (ch_in_queue receiver) rest) w3).
Proof.
  intros Hconn Hsch sender receiver closer m rest Hpair Hcloser.
  destruct (connect_facts _ _ _ _ _ Hconn)
    as (q1 & q2 & e & sch & Hc & Hs & Hsch' & Hq12 & _ & _ & _ & Hq1 & Hq2 & He & _).
  subst sch. rewrite Hsch' in Hsch. injection Hsch as <-.
  assert (ch_out_queue sender = ch_in_queue receiver ∧
          ch_closed sender = e ∧ ch_closed receiver = e ∧
          queues w1 !! ch_out_queue sender = Some [])
    as (Hcross & Hcs & Hcr & Hempty).
  { rewrite Hc in Hpair.
    apply elem_of_cons in Hpair as [Hp|Hp%list_elem_of_singleton];
      injection Hp as -> ->; simpl; split_and!; done. }
  assert (ch_closed closer = e) as Hcc.
  { apply elem_of_cons in Hcloser as [Hx|Hx%list_elem_of_singleton];
      by rewrite Hx. }
  destruct (send_all_when_open sender (m :: rest) w1)
    as (w2 & Hsend & Hev2 & Hitems).
  { apply closed_lookup. by rewrite Hcs. }
  rewrite (items_lookup _ _ _ Hempty) in Hitems. simpl in Hitems.
  cbv zeta. rewrite Hsend. cbn [fst snd]. split; [done|].
  assert (DummyChannel.closed receiver (snd (DummyChannel.close closer w2)) = true)
    as Hclosed.
  { unfold DummyChannel.closed, DummyChannel.close, Event.is_set_in. simpl.
    rewrite Hcr, Hcc. by rewrite lookup_insert_eq. }
  assert (Queue.items (snd (DummyChannel.close closer w2)) (ch_in_queue receiver)
            = m :: rest) as Hq.
  { rewrite <- Hcross. exact Hitems. }
  split_and!.
  - unfold DummyChannel.recv. unfold DummyChannel.closed in Hclosed.
    by rewrite Hclosed.
  - exact Hq.
  - unfold DummyChannel.recv_resume, Queue.get_resume, Queue.get.
    rewrite Hq. done.
Qed.

Lemma close_strands_queued_messages_witness :
  DummyClient.connect "dummy://a" None example_served
    = (Return example_client, example_connected) ∧
  server_channel_of example_connected example_client
    = Some (mkChannel 1 0 1 None None) ∧
  DummyChannel.recv (mkChannel 1 0 1 None None)
    (snd (DummyChannel.close (cl_channel example_client)
            (snd (send_all (cl_channel example_client) [PyInt 1; PyInt 2]
                    example_connected))))
    = (Done (Raise ChannelClosed),
       snd (DummyChannel.close (cl_channel example_client)
              (snd (send_all (cl_channel example_client) [PyInt 1; PyInt 2]
                      example_connected)))).
Proof.
  assert (DummyClient.connect "dummy://a" None example_served
            = (Return example_client, example_connected)) as Hconn
    by (vm_compute; reflexivity).
  assert (server_channel_of example_connected example_client
            = Some (mkChannel 1 0 1 None None)) as Hsch
    by (vm_compute; reflexivity).
  assert ((cl_channel example_client, mkChannel 1 0 1 None None)
            ∈ [(cl_channel example_client, mkChannel 1 0 1 None None);
               (mkChannel 1 0 1 None None, cl_channel example_client)]) as Hpair
    by (apply elem_of_cons; left; reflexivity).
  assert (cl_channel example_client
            ∈ [cl_channel example_client; mkChannel 1 0 1 None None]) as Hcl
    by (apply elem_of_cons; left; reflexivity).
  split; [exact Hconn|]. split; [exact Hsch|].
  exact (proj1 (proj2 (close_strands_queued_messages "dummy://a" None
                         example_served example_client example_connected _
                         Hconn Hsch _ _ _ (PyInt 1) [PyInt 2] Hpair Hcl))).
Defined.
(** ** Accepting, stopping and forgetting connections *)

Lemma stopped_after_connect dest_address local_address w client w1 server :
  DummyClient.connect dest_address local_address w = (Return client, w1) →
  DummyServer.stopped server w = false →
  DummyServer.stopped server w1 = false.
Proof.
  intros Hconn Hst.
  destruct (connect_world _ _ _ _ _ Hconn) as (srv & _ & _ & _ & ->).
  unfold DummyServer.stopped, Event.is_set_in in *. simpl.
  destruct (decide (fresh (dom (events w)) = srv_closed server)) as [<-|Hne].
  - by rewrite lookup_insert_eq.
  - by rewrite lookup_insert_ne.
Qed.

(** The first step of the accept task of a connection just made. *)
Lemma accept_after_connect dest_address local_address w client w1 server :
  DummyClient.connect dest_address local_address w = (Return client, w1) →
  _address_to_instances w !! dest_address = Some server →
  ∃ t server_channel st,
    DummyClient._task w1 client = Some t ∧
    server_channel_of w1 client = Some server_channel ∧
    EventLoop.run_task t w1
      = with_tasks (insert t (mkTask server server_channel st false [server]))
          (DummyServer.add_channel server server_channel w1) ∧
    st = match srv_channel_handler server with
         | PyCallable _ => InHandler
         | _ => Finished (Raise TypeError)
         end.
Proof.
  intros Hconn Hreg.
  pose proof (stopped_after_connect _ _ _ _ _ server Hconn) as Hst1.
  destruct (connect_world _ _ _ _ _ Hconn) as (srv & Hreg' & Hst & -> & Hw1).
  rewrite Hreg in Hreg'. injection Hreg' as <-. specialize (Hst1 Hst).
  eexists _, _, _. split.
  { rewrite Hw1. unfold DummyClient._task. simpl. by rewrite lookup_insert_eq. }
  split.
  { rewrite Hw1. unfold server_channel_of, DummyClient._task. simpl.
    by rewrite !lookup_insert_eq. }
  split; [|reflexivity].
  unfold EventLoop.run_task.
  assert (tasks w1 !! fresh (dom (tasks w))
            = Some (mkTask server
                      (mkChannel (fresh (dom (<[fresh (dom (queues w)):=[]]> (queues w))))
                         (fresh (dom (queues w))) (fresh (dom (events w)))
                         None local_address)
                      Unstarted false [server])) as ->.
  { rewrite Hw1. simpl. by rewrite lookup_insert_eq. }
  simpl. unfold DummyServer.on_connected.
  unfold DummyServer.stopped in Hst1. rewrite Hst1.
  unfold EventLoop.set_state. simpl.
  by destruct (srv_channel_handler server).
Qed.




(** X9.  A [stop] that comes before the accept task of a connection has
    taken its first step does not reach that connection.  The task is
    cancelled without running [on_connected], so the server-side channel is
    never tracked and its flag is never set: after the stop and the cancelled
    step of the task, the client's channel still reads open and its [send]
    still succeeds.  (The flags of the server and of the channels it tracks
    are taken to exist in the store.) *)
Theorem stop_before_accept_leaves_client_open dest_address local_address w client
    w1 server t :
  DummyClient.connect dest_address local_address w = (Return client, w1) →
  _address_to_instances w !! dest_address = Some server →
  DummyClient._task w1 client = Some t →
  is_Some (events w !! srv_closed server) →
  (∀ c, c ∈ DummyServer._channels w server → is_Some (events w !! ch_closed c)) →
  AsyncTask.result_in (EventLoop.run_task t (snd (DummyServer.stop server w1))) t
    = Some (Raise CancelledError) ∧
  DummyServer._channels (EventLoop.run_task t (snd (DummyServer.stop server w1)))
      server
    = DummyServer._channels w server ∧
  DummyChannel.closed (cl_channel client)
    (EventLoop.run_task t (snd (DummyServer.stop server w1))) = false ∧
  ∀ message,
    fst (DummyChannel.send (cl_channel client) message
           (EventLoop.run_task t (snd (DummyServer.stop server w1))))
    = Return tt.
Proof.
  intros Hconn Hreg Htask Hsrv Hchs.
  destruct (connect_world _ _ _ _ _ Hconn) as (srv & Hreg' & Hst & Hclient & Hw1).
  rewrite Hreg in Hreg'. injection Hreg' as <-. subst client.
  set (e := fresh (dom (events w))) in *.
  set (t0 := fresh (dom (tasks w))) in *.
  assert (t = t0) as ->.
  { rewrite Hw1 in Htask. unfold DummyClient._task in Htask. simpl in Htask.
    rewrite lookup_insert_eq in Htask. by injection Htask. }
  assert (DummyServer._channels w1 server = DummyServer._channels w server) as Hch1.
  { rewrite Hw1. unfold DummyServer._channels at 1. unfold DummyServer.sets_of.
    simpl. by rewrite lookup_insert_eq. }
  assert (t0 ∈ DummyServer._tasks w1 server) as Hin.
  { rewrite Hw1. unfold DummyServer._tasks at 1. unfold DummyServer.sets_of.
    simpl. rewrite lookup_insert_eq. simpl.
    apply elem_of_union_l. by apply elem_of_singleton. }
  set (w2 := snd (DummyServer.stop server w1)).
  assert (tasks w2 !! t0
            = Some (mkTask server (mkChannel (fresh (dom (<[fresh (dom (queues w)):=[]]> (queues w))))
                         (fresh (dom (queues w))) (fresh (dom (events w)))
                         None local_address)
                      Unstarted true [server])) as Htk2.
  { unfold w2. rewrite (stop_task_lookup server w1 t0 Hin).
    rewrite Hw1. simpl. by rewrite lookup_insert_eq. }
  assert (events w2 !! e = Some false) as He2.
  { unfold w2. rewrite stop_world. simpl. rewrite set_all_lookup.
    rewrite decide_False.
    - rewrite lookup_insert_ne.
      + rewrite Hw1. simpl. by rewrite lookup_insert_eq.
      + intros Heq. destruct Hsrv as [b Hb]. rewrite Heq in Hb.
        unfold e in Hb. by rewrite fresh_not_in_dom in Hb.
    - intros (c & Hc & Hcin)%list_elem_of_fmap. rewrite Hch1 in Hcin.
      destruct (Hchs c Hcin) as [b Hb]. rewrite <- Hc in Hb.
      unfold e in Hb. by rewrite fresh_not_in_dom in Hb. }
  assert (EventLoop.run_task t0 w2
            = with_tasks (insert t0 (mkTask server
                                       (mkChannel (fresh (dom (<[fresh (dom (queues w)):=[]]> (queues w))))
                         (fresh (dom (queues w))) (fresh (dom (events w)))
                         None local_address)
                                       (Finished (Raise CancelledError)) false
                                       [server])) w2) as Hrun.
  { unfold EventLoop.run_task. by rewrite Htk2. }
  rewrite Hrun. split_and!.
  - unfold AsyncTask.result_in. simpl. by rewrite lookup_insert_eq.
  - change (DummyServer._channels w2 server = DummyServer._channels w server).
    unfold w2. rewrite stop_world. exact Hch1.
  - by apply closed_lookup.
  - intros message. rewrite send_when_open; [done|].
    by apply closed_lookup.
Qed.

Lemma stop_before_accept_leaves_client_open_witness :
  DummyClient.connect "dummy://a" None example_served
    = (Return example_client, example_connected) ∧
  _address_to_instances example_served !! "dummy://a" = Some example_server ∧
  DummyClient._task example_connected example_client = Some 0 ∧
  is_Some (events example_served !! srv_closed example_server) ∧
  DummyChannel.closed (cl_channel example_client)
    (EventLoop.run_task 0 (snd (DummyServer.stop example_server example_connected)))
    = false.
Proof.
  assert (DummyClient.connect "dummy://a" None example_served
            = (Return example_client, example_connected)) as Hconn
    by (vm_compute; reflexivity).
  assert (_address_to_instances example_served !! "dummy://a"
            = Some example_server) as Hreg by (vm_compute; reflexivity).
  assert (DummyClient._task example_connected example_client = Some 0) as Ht
    by (vm_compute; reflexivity).
  assert (is_Some (events example_served !! srv_closed example_server)) as Hsrv
    by (exists false; vm_compute; reflexivity).
  assert (∀ c, c ∈ DummyServer._channels example_served example_server →
               is_Some (events example_served !! ch_closed c)) as Hchs.
  { intros c Hc. vm_compute in Hc. by apply not_elem_of_nil in Hc. }
  split; [exact Hconn|]. split; [exact Hreg|]. split; [exact Ht|].
  split; [exact Hsrv|].
  exact (proj1 (proj2 (proj2 (stop_before_accept_leaves_client_open _ _ _ _ _ _ _
                                Hconn Hreg Ht Hsrv Hchs)))).
Defined.
Lemma tasks_after_discard server t w :
  DummyServer._tasks (DummyServer.discard_task server t w) server
    = DummyServer._tasks w server ∖ {[t]}.
Proof.
  unfold DummyServer._tasks at 1. unfold DummyServer.sets_of,
    DummyServer.discard_task. simpl. by rewrite lookup_insert_eq.
Qed.

(** The done callback of a finished task that was given the one callback
    [connect] registers. *)
Lemma run_done_callbacks_finished t tk r server w :
  tasks w !! t = Some tk →
  task_state_of tk = Finished r →
  task_callbacks tk = [server] →
  DummyServer._tasks (EventLoop.run_done_callbacks t w) server
    = DummyServer._tasks w server ∖ {[t]} ∧
  AsyncTask.result_in (EventLoop.run_done_callbacks t w) t = Some r.
Proof.
  intros Htk Hst Hcb. unfold EventLoop.run_done_callbacks.
  rewrite Htk, Hst, Hcb. simpl. split.
  - change (DummyServer._tasks (DummyServer.discard_task server t w) server
              = DummyServer._tasks w server ∖ {[t]}).
    apply tasks_after_discard.
  - unfold AsyncTask.result_in. simpl. by rewrite lookup_insert_eq.
Qed.

(** X10.  However the accept task of a connection ends, its done callback
    takes it, and nothing else, out of [_tasks] of the server; until the
    callback runs the finished task is still in the set.  Two ways are
    followed to the end: the task starts and its handler returns or raises
    [r] (or cannot be called at all, which is a [TypeError]); the server is
    stopped before the task starts, which ends it with [CancelledError]. *)
Theorem done_callback_forgets_the_task dest_address local_address w client w1
    server t r :
  DummyClient.connect dest_address local_address w = (Return client, w1) →
  _address_to_instances w !! dest_address = Some server →
  DummyClient._task w1 client = Some t →
  t ∈ DummyServer._tasks w1 server ∧
  t ∈ DummyServer._tasks (run [RunTask t; HandlerExit t r] w1) server ∧
  DummyServer._tasks (run [RunTask t; HandlerExit t r; RunDoneCallbacks t] w1) server
    = DummyServer._tasks w server ∖ {[t]} ∧
  AsyncTask.result_in (run [RunTask t; HandlerExit t r; RunDoneCallbacks t] w1) t
    = Some (match srv_channel_handler server with
            | PyCallable _ => r
            | _ => Raise TypeError
            end) ∧
  t ∈ DummyServer._tasks (run [Stop server; RunTask t] w1) server ∧
  DummyServer._tasks (run [Stop server; RunTask t; RunDoneCallbacks t] w1) server
    = DummyServer._tasks w server ∖ {[t]} ∧
  AsyncTask.result_in (run [Stop server; RunTask t; RunDoneCallbacks t] w1) t
    = Some (Raise CancelledError).
Proof.
  intros Hconn Hreg Htask.
  destruct (accept_after_connect _ _ _ _ _ _ Hconn Hreg)
    as (t' & sch & st & Htask' & Hsch & Hrun & Hst).
  rewrite Htask in Htask'. injection Htask' as <-.
  destruct (connect_world _ _ _ _ _ Hconn) as (srv & Hreg' & _ & Hclient & Hw1).
  rewrite Hreg in Hreg'. injection Hreg' as <-.
  assert (t = fresh (dom (tasks w))) as Ht.
  { rewrite Hw1, Hclient in Htask. unfold DummyClient._task in Htask.
    simpl in Htask. rewrite lookup_insert_eq in Htask. by injection Htask. }
  assert (DummyServer._tasks w1 server = {[t]} ∪ DummyServer._tasks w server)
    as Htasks1.
  { rewrite Hw1, Ht. unfold DummyServer._tasks at 1. unfold DummyServer.sets_of.
    simpl. by rewrite lookup_insert_eq. }
  assert (t ∈ DummyServer._tasks w1 server) as Hin1.
  { rewrite Htasks1. apply elem_of_union_l. by apply elem_of_singleton. }
  assert (({[t]} ∪ DummyServer._tasks w server) ∖ {[t]}
            = DummyServer._tasks w server ∖ {[t]}) as Hset.
  { apply set_eq. intros x.
    rewrite !elem_of_difference, elem_of_union, elem_of_singleton. tauto. }
  split; [exact Hin1|].
  (* the task starts *)
  assert (DummyServer._tasks (EventLoop.run_task t w1) server
            = DummyServer._tasks w1 server) as Htasks2.
  { rewrite Hrun. unfold DummyServer._tasks at 1.
    unfold DummyServer.sets_of, DummyServer.add_channel. simpl.
    by rewrite lookup_insert_eq. }
  assert (∃ tk, tasks (EventLoop.handler_exit t r (EventLoop.run_task t w1)) !! t
                  = Some tk ∧
                task_callbacks tk = [server] ∧
                task_state_of tk
                  = Finished (match srv_channel_handler server with
                              | PyCallable _ => r
                              | _ => Raise TypeError
                              end) ∧
                DummyServer._tasks
                  (EventLoop.handler_exit t r (EventLoop.run_task t w1)) server
                  = DummyServer._tasks w1 server) as (tk & Htk & Hcb & Hfin & Htasks3).
  { unfold EventLoop.handler_exit. rewrite Hrun. simpl.
    rewrite lookup_insert_eq. simpl. rewrite Hst.
    destruct (srv_channel_handler server); simpl;
      try (eexists; split; [by rewrite lookup_insert_eq|];
           split; [done|]; split; [done|];
           rewrite <- Htasks2, Hrun; done). }
  cbn [run exec].
  split; [by rewrite Htasks3|].
  destruct (run_done_callbacks_finished t tk _ server _ Htk Hfin Hcb) as (Hd & Hr).
  split; [by rewrite Hd, Htasks3, Htasks1, Hset|]. split; [exact Hr|].
  (* the server is stopped first *)
  set (w2 := snd (DummyServer.stop server w1)).
  assert (DummyServer._tasks w2 server = DummyServer._tasks w1 server) as Htasks2'.
  { unfold w2. by rewrite stop_world. }
  assert (∃ tk', tasks (EventLoop.run_task t w2) !! t = Some tk' ∧
                 task_callbacks tk' = [server] ∧
                 task_state_of tk' = Finished (Raise CancelledError) ∧
                 DummyServer._tasks (EventLoop.run_task t w2) server
                   = DummyServer._tasks w1 server)
    as (tk' & Htk' & Hcb' & Hfin' & Htasks3').
  { assert (∃ sch', tasks w1 !! t
                      = Some (mkTask server sch' Unstarted false [server]))
      as (sch' & Htk1).
    { destruct (connect_inv _ _ _ _ _ Hconn)
        as (srv & _ & Hreg' & _ & _ & Ht1 & Htk1 & _).
      rewrite Hreg in Hreg'. injection Hreg' as <-.
      rewrite Htask in Ht1. injection Ht1 as ->. eauto. }
    unfold EventLoop.run_task. unfold w2.
    rewrite (stop_task_lookup server w1 t Hin1), Htk1. simpl. fold w2.
    eexists. split; [by rewrite lookup_insert_eq|]. split; [done|].
    split; [done|]. exact Htasks2'. }
  split; [by rewrite Htasks3'|].
  destruct (run_done_callbacks_finished t tk' _ server _ Htk' Hfin' Hcb')
    as (Hd' & Hr').
  split; [by rewrite Hd', Htasks3', Htasks1, Hset|exact Hr'].
Qed.

Lemma done_callback_forgets_the_task_witness :
  DummyClient.connect "dummy://a" None example_served
    = (Return example_client, example_connected) ∧
  _address_to_instances example_served !! "dummy://a" = Some example_server ∧
  DummyClient._task example_connected example_client = Some 0 ∧
  0 ∈ DummyServer._tasks example_connected example_server ∧
  DummyServer._tasks
    (run [Stop example_server; RunTask 0; RunDoneCallbacks 0] example_connected)
    example_server
    = DummyServer._tasks example_served example_server ∖ {[0]}.
Proof.
  assert (DummyClient.connect "dummy://a" None example_served
            = (Return example_client, example_connected)) as Hconn
    by (vm_compute; reflexivity).
  assert (_address_to_instances example_served !! "dummy://a"
            = Some example_server) as Hreg by (vm_compute; reflexivity).
  assert (DummyClient._task example_connected example_client = Some 0) as Ht
    by (vm_compute; reflexivity).
  split; [exact Hconn|]. split; [exact Hreg|]. split; [exact Ht|].
  destruct (done_callback_forgets_the_task _ _ _ _ _ _ _ (Return tt) Hconn Hreg Ht)
    as (H1 & _ & _ & _ & _ & H6 & _).
  split; [exact H1|exact H6].
Defined.

(** ** Closing a client *)


(** ** More on [create] *)






(** ** From [create] to [connect] *)



(** ** What [on_connected] refuses *)

(** X15.  On a server that is not stopped, [on_connected] looks at its first
    positional argument only.  Without one it raises [IndexError]; when the
    first one is not a channel, [AssertionError]; with any keyword, whatever
    the channel, [TypeError]; in these three cases the store is untouched and
    the channel is not tracked.  When the handler of the server cannot be
    called the [TypeError] comes after the channel was added to
    [_channels], and the channel stays tracked. *)
Theorem on_connected_rejections self w :
  DummyServer.stopped self w = false →
  (∀ kwargs,
     DummyServer.on_connected self [] kwargs w = (AcceptDone (Raise IndexError), w)) ∧
  (∀ v rest kwargs,
     DummyServer.on_connected self (ArgValue v :: rest) kwargs w
       = (AcceptDone (Raise AssertionError), w)) ∧
  (∀ channel rest keyword kwargs,
     DummyServer.on_connected self (ArgChannel channel :: rest) (keyword :: kwargs) w
       = (AcceptDone (Raise TypeError), w)) ∧
  (∀ channel rest,
     (∀ handler, srv_channel_handler self ≠ PyCallable handler) →
     DummyServer.on_connected self (ArgChannel channel :: rest) [] w
       = (AcceptDone (Raise TypeError), DummyServer.add_channel self channel w) ∧
     channel ∈ DummyServer._channels (DummyServer.add_channel self channel w) self) ∧
  (∀ channel rest handler,
     srv_channel_handler self = PyCallable handler →
     DummyServer.on_connected self (ArgChannel channel :: rest) [] w
       = (AwaitHandler handler channel, DummyServer.add_channel self channel w)).
Proof.
  intros Hst. unfold DummyServer.stopped in Hst. unfold DummyServer.on_connected.
  rewrite Hst. split_and!; try done.
  - intros channel rest Hh. rewrite channels_after_add.
    split; [|apply weakset_add_In].
    destruct (srv_channel_handler self) as [| | | |handler]; try done.
    by destruct (Hh handler).
  - by intros channel rest handler ->.
Qed.

Lemma on_connected_rejections_witness :
  DummyServer.stopped example_server example_served = false ∧
  DummyServer.on_connected example_server [] [] example_served
    = (AcceptDone (Raise IndexError), example_served) ∧
  DummyServer.on_connected example_server [ArgValue PyNone] [] example_served
    = (AcceptDone (Raise AssertionError), example_served) ∧
  DummyServer.on_connected example_server [ArgChannel (mkChannel 1 0 1 None None)]
      ["timeout"] example_served
    = (AcceptDone (Raise TypeError), example_served).
Proof.
  assert (DummyServer.stopped example_server example_served = false) as Hst
    by (vm_compute; reflexivity).
  destruct (on_connected_rejections example_server example_served Hst)
    as (H1 & H2 & H3 & _).
  split; [exact Hst|]. split; [exact (H1 [])|].
  split; [exact (H2 PyNone [] [])|exact (H3 _ [] "timeout" [])].
Defined.

(** ** What [stop] leaves alone *)



(** ** Messages sent before the server side runs *)

Lemma on_connected_queues_events self args kwargs w :
  queues (snd (DummyServer.on_connected self args kwargs w)) = queues w ∧
  events (snd (DummyServer.on_connected self args kwargs w)) = events w.
Proof. unfold DummyServer.on_connected. by repeat case_match. Qed.

Lemma run_task_queues_events t w :
  queues (EventLoop.run_task t w) = queues w ∧
  events (EventLoop.run_task t w) = events w.
Proof.
  unfold EventLoop.run_task.
  destruct (tasks w !! t) as [tk|]; [|done].
  destruct (task_state_of tk); [| |done].
  - destruct (task_must_cancel tk); [done|].
    pose proof (on_connected_queues_events (task_server tk)
                  [ArgChannel (task_channel tk)] [] w) as Hk.
    by destruct (DummyServer.on_connected _ _ _ w) as [[r|h c] w'].
  - by destruct (task_must_cancel tk).
Qed.

(** X17.  Nothing is lost between [connect] and the first step of the accept
    task: the messages the client sends right after [connect] returns wait in
    the queue while the task starts, and the server side then receives them
    all, in order, without suspending. *)
Theorem early_messages_are_delivered dest_address local_address w client w1
    server_channel t messages :
  DummyClient.connect dest_address local_address w = (Return client, w1) →
  server_channel_of w1 client = Some server_channel →
  DummyClient._task w1 client = Some t →
  ∃ w2 w3,
    send_all (cl_channel client) messages w1 = (Return tt, w2) ∧
    recv_n server_channel (length messages) (EventLoop.run_task t w2)
      = (map (λ m, Done (Return m)) messages, w3) ∧
    DummyChannel.recv server_channel w3 = (Suspend, w3).
Proof.
  intros Hconn Hsch Htask.
  destruct (connect_facts _ _ _ _ _ Hconn)
    as (q1 & q2 & e & sch & Hc & Hs & Hsch' & Hq12 & _ & _ & _ & Hq1 & Hq2 & He & _).
  subst sch. rewrite Hsch' in Hsch. injection Hsch as <-.
  destruct (send_all_when_open (cl_channel client) messages w1)
    as (w2 & Hsend & Hev2 & Hitems).
  { apply closed_lookup. by rewrite Hc. }
  rewrite Hc in Hitems. simpl in Hitems.
  rewrite (items_lookup _ _ _ Hq2) in Hitems. simpl in Hitems.
  destruct (run_task_queues_events t w2) as (Hq3 & Hev3).
  destruct (recv_n_delivers (mkChannel q2 q1 e None local_address) messages []
              (EventLoop.run_task t w2)) as (w3 & Hrecv & Hev4 & Hrest).
  { unfold DummyChannel.closed, Event.is_set_in. simpl.
    by rewrite Hev3, Hev2, He. }
  { unfold Queue.items in *. simpl. rewrite Hq3. by rewrite app_nil_r. }
  exists w2, w3. split; [done|]. split; [done|].
  apply recv_when_open_empty; [|done].
  unfold DummyChannel.closed, Event.is_set_in. simpl.
  by rewrite Hev4, Hev3, Hev2, He.
Qed.

Lemma early_messages_are_delivered_witness :
  DummyClient.connect "dummy://a" None example_served
    = (Return example_client, example_connected) ∧
  server_channel_of example_connected example_client
    = Some (mkChannel 1 0 1 None None) ∧
  DummyClient._task example_connected example_client = Some 0 ∧
  ∃ w2 w3,
    send_all (cl_channel example_client) [PyStr "hello"; PyInt 2] example_connected
      = (Return tt, w2) ∧
    recv_n (mkChannel 1 0 1 None None) 2 (EventLoop.run_task 0 w2)
      = ([Done (Return (PyStr "hello")); Done (Return (PyInt 2))], w3) ∧
    DummyChannel.recv (mkChannel 1 0 1 None None) w3 = (Suspend, w3).
Proof.
  assert (DummyClient.connect "dummy://a" None example_served
            = (Return example_client, example_connected)) as Hconn
    by (vm_compute; reflexivity).
  assert (server_channel_of example_connected example_client
            = Some (mkChannel 1 0 1 None None)) as Hsch
    by (vm_compute; reflexivity).
  assert (DummyClient._task example_connected example_client = Some 0) as Ht
    by (vm_compute; reflexivity).
  split; [exact Hconn|]. split; [exact Hsch|]. split; [exact Ht|].
  exact (early_messages_are_delivered "dummy://a" None example_served
           example_client example_connected _ 0 [PyStr "hello"; PyInt 2]
           Hconn Hsch Ht).
Defined.
